(** * Barcode generator: validation, batch control flow, file naming

    A shallow embedding of [src/app/page.tsx] (both documents the file
    holds: the component before the separator at line 595, and the related
    component after it) and the properties the specification states about
    it. *)

From Stdlib Require Import List Bool Arith NArith Lia String Ascii.
From Stdlib Require Import Floats.
Import ListNotations.

Set Implicit Arguments.
Set Warnings "-inexact-float".

(** ** JavaScript strings

    A JavaScript string is a finite sequence of 16-bit code units; regular
    expressions without the [u] flag, [===], template literals and [!text]
    all work on code units.  ASCII literals of the source are written
    [js "..."]. *)

Definition code_unit := N.
Definition jsstring := list code_unit.

Definition cu (a : ascii) : code_unit := N_of_ascii a.

Definition js (s : string) : jsstring := map cu (list_ascii_of_string s).

(** [a === b] on strings. *)
Fixpoint jsstring_eqb (a b : jsstring) : bool :=
  match a, b with
  | [], [] => true
  | x :: a', y :: b' => N.eqb x y && jsstring_eqb a' b'
  | _, _ => false
  end.

(** [!text] on a string: only the empty string is falsy. *)
Definition falsy (s : jsstring) : bool :=
  match s with
  | [] => true
  | _ :: _ => false
  end.

(** ** The regular-expression fragment the source uses

    Every pattern of [BARCODE_FORMATS] is a sequence of assertions ([^],
    [$]) and of one quantified character class.  The matcher follows the
    backtracking semantics of ECMAScript: a term is matched at a position
    with a continuation for what follows it, and [test] tries every start
    index from 0. *)

Module RegExp.

Inductive class_item :=
| CRange (lo hi : code_unit)   (* [lo-hi] *)
| CChar (c : code_unit).       (* a single, possibly escaped, character *)

Inductive atom :=
| ADigit                           (* \d *)
| AClass (items : list class_item) (* [...] *).

Inductive quantifier :=
| QPlus              (* + *)
| QExact (n : nat)   (* {n} *).

Inductive term :=
| TBol                                (* ^ , no m flag *)
| TEol                                (* $ , no m flag *)
| TAtom (a : atom) (q : quantifier).

Definition pattern := list term.

Definition item_matches (i : class_item) (c : code_unit) : bool :=
  match i with
  | CRange lo hi => N.leb lo c && N.leb c hi
  | CChar d => N.eqb c d
  end.

Definition atom_matches (a : atom) (c : code_unit) : bool :=
  match a with
  | ADigit => N.leb (cu "0") c && N.leb c (cu "9")
  | AClass items => existsb (fun i => item_matches i c) items
  end.

(** A continuation receives the index reached and the input left. *)
Definition cont := nat -> jsstring -> bool.

(** [a{n}] followed by [k]. *)
Fixpoint exactly (n : nat) (a : atom) (k : cont) (pos : nat) (s : jsstring)
  : bool :=
  match n with
  | O => k pos s
  | S n' =>
      match s with
      | c :: s' => atom_matches a c && exactly n' a k (S pos) s'
      | [] => false
      end
  end.

(** [a*] followed by [k], greedy: the longer repetition is tried first. *)
Fixpoint star (a : atom) (k : cont) (pos : nat) (s : jsstring) : bool :=
  match s with
  | c :: s' => (atom_matches a c && star a k (S pos) s') || k pos s
  | [] => k pos []
  end.

Fixpoint matches_at (p : pattern) (pos : nat) (s : jsstring) : bool :=
  match p with
  | [] => true
  | TBol :: p' => Nat.eqb pos 0 && matches_at p' pos s
  | TEol :: p' => falsy s && matches_at p' pos s
  | TAtom a (QExact n) :: p' => exactly n a (matches_at p') pos s
  | TAtom a QPlus :: p' => exactly 1 a (star a (matches_at p')) pos s
  end.

(** The search loop of [RegExp.prototype.test] (no [g] or [y] flag). *)
Fixpoint search (p : pattern) (pos : nat) (s : jsstring) : bool :=
  matches_at p pos s
  || match s with
     | _ :: s' => search p (S pos) s'
     | [] => false
     end.

Definition test (p : pattern) (s : jsstring) : bool := search p 0 s.

End RegExp.

Import RegExp.

(** ** [BARCODE_FORMATS] (lines 27-33 and 621-627, identical) *)

Record FormatInfo := {
  value : jsstring;
  label : jsstring;
  validation : jsstring -> bool
}.

(** [/^[0-9A-Z\-. $\/+%]+$/] *)
Definition code39_class : atom :=
  AClass [ CRange (cu "0") (cu "9"); CRange (cu "A") (cu "Z");
           CChar (cu "-"); CChar (cu "."); CChar (cu " ");
           CChar (cu "$"); CChar (cu "/"); CChar (cu "+"); CChar (cu "%") ].

Definition code39_pattern : pattern :=
  [ TBol; TAtom code39_class QPlus; TEol ].

(** [/^\d{n}$/] for n = 13, 8, 12 *)
Definition digits_pattern (n : nat) : pattern :=
  [ TBol; TAtom ADigit (QExact n); TEol ].

Definition BARCODE_FORMATS : list FormatInfo :=
  [ {| value := js "CODE128"; label := js "Code 128";
       validation := fun _ => true |};
    {| value := js "CODE39"; label := js "Code 39";
       validation := fun text => test code39_pattern text |};
    {| value := js "EAN13"; label := js "EAN-13";
       validation := fun text => test (digits_pattern 13) text |};
    {| value := js "EAN8"; label := js "EAN-8";
       validation := fun text => test (digits_pattern 8) text |};
    {| value := js "UPC"; label := js "UPC-A";
       validation := fun text => test (digits_pattern 12) text |} ].

(** ** [validateBarcode] *)

(** First document, lines 63-68. *)
Definition validateBarcode (text format : jsstring) : bool :=
  if falsy text then false
  else
    match find (fun f => jsstring_eqb (value f) format) BARCODE_FORMATS with
    | None => false
    | Some formatInfo => validation formatInfo text
    end.

(** Second document, lines 656-660: the same function without the
    [if (!text) return false] line. *)
Definition validateBarcode_related (text format : jsstring) : bool :=
  match find (fun f => jsstring_eqb (value f) format) BARCODE_FORMATS with
  | None => false
  | Some formatInfo => validation formatInfo text
  end.

(** The predicates of the specification. *)
Definition is_digit (c : code_unit) : Prop := (48 <= c <= 57)%N.

Definition is_code39_char (c : code_unit) : Prop :=
  (48 <= c <= 57)%N \/ (65 <= c <= 90)%N \/
  In c [cu " "; cu "-"; cu "."; cu "$"; cu "/"; cu "+"; cu "%"].

Definition supported : list jsstring :=
  [js "CODE128"; js "CODE39"; js "EAN13"; js "EAN8"; js "UPC"].

(** The verdicts of a validator on the three numeric symbologies. *)
Definition numeric_verdicts (v : jsstring -> jsstring -> bool) (s : jsstring)
  : bool * bool * bool :=
  (v s (js "EAN13"), v s (js "EAN8"), v s (js "UPC")).

(** ["héllo!"]: six code units, the second one U+00E9. *)
Definition hello_accented : jsstring := [104; 233; 108; 108; 111; 33]%N.

(** ** Settings and batch rows (lines 8-25, 55)

    JavaScript numbers are binary64 floats.  [width], [height] and
    [fontSize] are declared optional and read with [!]; the initial state
    and every setter define them, so they are modelled as always present. *)

Module BarcodeSettings.
Record t := {
  format : jsstring;
  width : float;
  height : float;
  displayValue : bool;
  text : option jsstring;
  font : jsstring;
  fontSize : float;
  backgroundColor : jsstring;
  lineColor : jsstring
}.
End BarcodeSettings.

Inductive ExportFormat := png | svg | jpg.

(** The string a member of ['png' | 'svg' | 'jpg'] is. *)
Definition format_name (f : ExportFormat) : jsstring :=
  match f with
  | png => js "png"
  | svg => js "svg"
  | jpg => js "jpg"
  end.

Module ExportSettings.
Record t := {
  format : ExportFormat;
  resolution : float;
  prefix : jsstring;
  suffix : jsstring
}.
End ExportSettings.

(** [{barcode: string, text?: string}] *)
Module BatchItem.
Record t := {
  barcode : jsstring;
  text : option jsstring
}.
End BatchItem.

(** The options object handed to [JsBarcode]. *)
Module Options.
Record t := {
  format : jsstring;
  width : float;
  height : float;
  displayValue : bool;
  text : option jsstring;
  font : jsstring;
  fontSize : float;
  background : jsstring;
  lineColor : jsstring
}.
End Options.

(** ** Effects

    The component acts on the outside world through the renderer
    ([JsBarcode]), the exporter ([saveAs], [canvas.toBlob]), the console
    and its own state setters.  A run of a handler is its final state
    together with the sequence of these calls. *)

Inductive surface :=
| previewRef     (* the preview <svg> of single mode *)
| canvasRef      (* the hidden <canvas> of single mode *)
| batchCanvas    (* document.createElement('canvas') of a batch run *)
| batchSvg.      (* document.createElementNS(..., 'svg'), one per row *)

Inductive event :=
| SetIsGenerating (b : bool)
| SetValidationError (msg : jsstring)
| SetCanvasSize (target : surface) (w h : float)
| JsBarcode (target : surface) (content : jsstring) (options : Options.t)
| SaveAs (payload : surface) (mime filename : jsstring)
    (* new Blob([serialised payload], {type: mime}); saveAs(blob, filename) *)
| ToBlob (payload : surface) (mime : jsstring) (quality : float)
         (filename : jsstring)
    (* payload.toBlob(cb, mime, quality), cb saving a non-null blob as
       filename *)
| Delay (ms : nat)
| ConsoleWarn (msg : jsstring)
| ConsoleError (msg : jsstring).

(** What the environment decides. *)
Record Env := {
  context2d : bool;
    (* canvas.getContext('2d') is not null *)
  mounted : surface -> bool;
    (* the ref's [current] is not null *)
  renders : surface -> jsstring -> Options.t -> bool
    (* JsBarcode returns normally rather than throwing *)
}.

(** The state of the component (lines 36-57). *)
Record Component := {
  inputText : jsstring;
  barcodeSettings : BarcodeSettings.t;
  exportSettings : ExportSettings.t;
  batchData : list BatchItem.t;
  validationError : jsstring;
  isGenerating : bool
}.

Definition with_isGenerating (b : bool) (st : Component) : Component :=
  {| inputText := inputText st;
     barcodeSettings := barcodeSettings st;
     exportSettings := exportSettings st;
     batchData := batchData st;
     validationError := validationError st;
     isGenerating := b |}.

Definition with_validationError (msg : jsstring) (st : Component)
  : Component :=
  {| inputText := inputText st;
     barcodeSettings := barcodeSettings st;
     exportSettings := exportSettings st;
     batchData := batchData st;
     validationError := msg;
     isGenerating := isGenerating st |}.

Definition with_batchData (data : list BatchItem.t) (st : Component)
  : Component :=
  {| inputText := inputText st;
     barcodeSettings := barcodeSettings st;
     exportSettings := exportSettings st;
     batchData := data;
     validationError := validationError st;
     isGenerating := isGenerating st |}.

(** [const ratio = exportSettings.resolution / 500] *)
Definition ratio (es : ExportSettings.t) : float :=
  (ExportSettings.resolution es / 500)%float.

(** The options literal with the configured sizes as they are (lines 86-96
    and 211-221). *)
Definition plain_options (bs : BarcodeSettings.t) (label : option jsstring)
  : Options.t :=
  {| Options.format := BarcodeSettings.format bs;
     Options.width := BarcodeSettings.width bs;
     Options.height := BarcodeSettings.height bs;
     Options.displayValue := BarcodeSettings.displayValue bs;
     Options.text := label;
     Options.font := BarcodeSettings.font bs;
     Options.fontSize := BarcodeSettings.fontSize bs;
     Options.background := BarcodeSettings.backgroundColor bs;
     Options.lineColor := BarcodeSettings.lineColor bs |}.

(** The options literal with the sizes multiplied by [ratio] (lines 118-128
    and 228-238). *)
Definition ratio_options (bs : BarcodeSettings.t) (r : float)
  (label : option jsstring) : Options.t :=
  {| Options.format := BarcodeSettings.format bs;
     Options.width := (BarcodeSettings.width bs * r)%float;
     Options.height := (BarcodeSettings.height bs * r)%float;
     Options.displayValue := BarcodeSettings.displayValue bs;
     Options.text := label;
     Options.font := BarcodeSettings.font bs;
     Options.fontSize := (BarcodeSettings.fontSize bs * r)%float;
     Options.background := BarcodeSettings.backgroundColor bs;
     Options.lineColor := BarcodeSettings.lineColor bs |}.

(** [barcodeSettings.text || inputText] *)
Definition text_or (t : option jsstring) (fallback : jsstring) : jsstring :=
  match t with
  | Some s => if falsy s then fallback else s
  | None => fallback
  end.

(** [`${exportSettings.prefix}${code}${exportSettings.suffix}.${ext}`] *)
Definition filename (es : ExportSettings.t) (code ext : jsstring) : jsstring :=
  ExportSettings.prefix es ++ code ++ ExportSettings.suffix es ++ js "." ++ ext.

(** [`image/${exportSettings.format}`] *)
Definition image_mime (es : ExportSettings.t) : jsstring :=
  js "image/" ++ format_name (ExportSettings.format es).

(** ** [generateBatch] (lines 187-257)

    The handler closes over the state of the render it was created in, so
    [batchData], [barcodeSettings] and [exportSettings] are fixed for the
    whole run.  It is the same text in both documents and differs only in
    the validator in scope, which is a parameter here. *)

Section Batch.

Variable validate : jsstring -> jsstring -> bool.
Variable env : Env.

(** The [try] block of one row (lines 208-253). *)
Definition export_row (bs : BarcodeSettings.t) (es : ExportSettings.t)
  (item : BatchItem.t) : list event :=
  let code := BatchItem.barcode item in
  let failed :=
    ConsoleError (js "Error generating barcode for " ++ code ++ js ":") in
  match ExportSettings.format es with
  | svg =>
      let options := plain_options bs (BatchItem.text item) in
      JsBarcode batchSvg code options ::
      if renders env batchSvg code options
      then [ SaveAs batchSvg (js "image/svg+xml") (filename es code (js "svg"));
             Delay 50 ]
      else [ failed ]
  | _ =>
      let options := ratio_options bs (ratio es) (BatchItem.text item) in
      JsBarcode batchCanvas code options ::
      if renders env batchCanvas code options
      then [ ToBlob batchCanvas (image_mime es) 0.9
               (filename es code (format_name (ExportSettings.format es)));
             Delay 50 ]
      else [ failed ]
  end.

(** One iteration of the [for] loop (lines 201-253). *)
Definition batch_row (bs : BarcodeSettings.t) (es : ExportSettings.t)
  (item : BatchItem.t) : list event :=
  if negb (validate (BatchItem.barcode item) (BarcodeSettings.format bs))
  then [ ConsoleWarn (js "Invalid barcode: " ++ BatchItem.barcode item) ]
  else export_row bs es item.

(** The [for] loop over [batchData], in index order. *)
Fixpoint batch_loop (bs : BarcodeSettings.t) (es : ExportSettings.t)
  (items : list BatchItem.t) : list event :=
  match items with
  | [] => []
  | item :: rest => batch_row bs es item ++ batch_loop bs es rest
  end.

(** What precedes the loop once the 2D context is there (lines 196-198). *)
Definition size_batch_canvas (es : ExportSettings.t) : event :=
  SetCanvasSize batchCanvas (400 * ratio es)%float (200 * ratio es)%float.

Definition generateBatch_with (st : Component) : Component * list event :=
  match batchData st with
  | [] => (st, [])
  | _ :: _ =>
      if negb (context2d env)
      then (with_isGenerating true st, [ SetIsGenerating true ])
      else
        (with_isGenerating false st,
         [ SetIsGenerating true; size_batch_canvas (exportSettings st) ]
         ++ batch_loop (barcodeSettings st) (exportSettings st) (batchData st)
         ++ [ SetIsGenerating false ])
  end.

End Batch.

Definition generateBatch : Env -> Component -> Component * list event :=
  generateBatch_with validateBarcode.

Definition generateBatch_related : Env -> Component -> Component * list event :=
  generateBatch_with validateBarcode_related.

(** ** [downloadSingle] (first document, lines 103-147)

    An exception of [JsBarcode] is not caught here and ends the handler.
    The related document builds the options by spreading [barcodeSettings]
    and overriding the same three sizes with the same products. *)
Definition downloadSingle (env : Env) (st : Component) : list event :=
  let text := inputText st in
  let bs := barcodeSettings st in
  let es := exportSettings st in
  if falsy text || negb (falsy (validationError st)) then []
  else if negb (mounted env canvasRef) then []
  else if negb (context2d env) then []
  else
    let options :=
      ratio_options bs (ratio es) (Some (text_or (BarcodeSettings.text bs) text))
    in
    SetCanvasSize canvasRef (400 * ratio es)%float (200 * ratio es)%float ::
    JsBarcode canvasRef text options ::
    if negb (renders env canvasRef text options) then []
    else
      match ExportSettings.format es with
      | svg =>
          if mounted env previewRef
          then [ SaveAs previewRef (js "image/svg+xml")
                   (filename es text (js "svg")) ]
          else []
      | _ =>
          [ ToBlob canvasRef (image_mime es) 0.9
              (filename es text (format_name (ExportSettings.format es))) ]
      end.

(** ** The preview effect (first document, lines 71-100) *)
Definition previewEffect (env : Env) (st : Component)
  : Component * list event :=
  let text := inputText st in
  let bs := barcodeSettings st in
  if falsy text || negb (mounted env previewRef)
  then (with_validationError [] st, [ SetValidationError [] ])
  else if negb (validateBarcode text (BarcodeSettings.format bs))
  then
    let msg := js "Invalid format for " ++ BarcodeSettings.format bs in
    (with_validationError msg st, [ SetValidationError msg ])
  else
    let options :=
      plain_options bs (Some (text_or (BarcodeSettings.text bs) text)) in
    if renders env previewRef text options
    then (with_validationError [] st,
          [ SetValidationError []; JsBarcode previewRef text options ])
    else
      let msg := js "Error generating barcode" in
      (with_validationError msg st,
       [ SetValidationError []; JsBarcode previewRef text options;
         SetValidationError msg ]).

(** ** Reading a trace *)

(** The content strings of the renderer invocations, in order. *)
Fixpoint render_attempts (tr : list event) : list jsstring :=
  match tr with
  | [] => []
  | JsBarcode _ content _ :: tr' => content :: render_attempts tr'
  | _ :: tr' => render_attempts tr'
  end.

(** The file names handed to the exporter, in order. *)
Fixpoint export_filenames (tr : list event) : list jsstring :=
  match tr with
  | [] => []
  | SaveAs _ _ name :: tr' => name :: export_filenames tr'
  | ToBlob _ _ _ name :: tr' => name :: export_filenames tr'
  | _ :: tr' => export_filenames tr'
  end.

(** The messages of [console.warn], in order. *)
Fixpoint warnings (tr : list event) : list jsstring :=
  match tr with
  | [] => []
  | ConsoleWarn msg :: tr' => msg :: warnings tr'
  | _ :: tr' => warnings tr'
  end.

(** The rows of a batch that pass, and that fail, validation. *)
Definition valid_rows (validate : jsstring -> jsstring -> bool)
  (bs : BarcodeSettings.t) (items : list BatchItem.t) : list BatchItem.t :=
  filter (fun item => validate (BatchItem.barcode item)
                               (BarcodeSettings.format bs)) items.

Definition invalid_rows (validate : jsstring -> jsstring -> bool)
  (bs : BarcodeSettings.t) (items : list BatchItem.t) : list BatchItem.t :=
  filter (fun item => negb (validate (BatchItem.barcode item)
                                     (BarcodeSettings.format bs))) items.

(** The target and the three sizes of each renderer invocation. *)
Definition sizes (o : Options.t) : float * float * float :=
  (Options.width o, Options.height o, Options.fontSize o).

Fixpoint render_sizes (tr : list event)
  : list (surface * (float * float * float)) :=
  match tr with
  | [] => []
  | JsBarcode target _ o :: tr' => (target, sizes o) :: render_sizes tr'
  | _ :: tr' => render_sizes tr'
  end.

(** The surface each exported payload is taken from. *)
Fixpoint export_payloads (tr : list event) : list surface :=
  match tr with
  | [] => []
  | SaveAs payload _ _ :: tr' => payload :: export_payloads tr'
  | ToBlob payload _ _ _ :: tr' => payload :: export_payloads tr'
  | _ :: tr' => export_payloads tr'
  end.

(** The configured sizes, as they are and multiplied by a factor. *)
Definition configured_sizes (bs : BarcodeSettings.t) : float * float * float :=
  (BarcodeSettings.width bs, BarcodeSettings.height bs,
   BarcodeSettings.fontSize bs).

Definition scaled_sizes (bs : BarcodeSettings.t) (r : float)
  : float * float * float :=
  ((BarcodeSettings.width bs * r)%float, (BarcodeSettings.height bs * r)%float,
   (BarcodeSettings.fontSize bs * r)%float).

(** The specification's file name: prefix + code + suffix + "." + format. *)
Definition export_name (es : ExportSettings.t) (code : jsstring) : jsstring :=
  ExportSettings.prefix es ++ code ++ ExportSettings.suffix es ++ js "."
  ++ format_name (ExportSettings.format es).

(** Whether the renderer accepts a batch row, on the surface and with the
    options its output format gives it. *)
Definition row_renders (env : Env) (bs : BarcodeSettings.t)
  (es : ExportSettings.t) (item : BatchItem.t) : bool :=
  match ExportSettings.format es with
  | svg => renders env batchSvg (BatchItem.barcode item)
             (plain_options bs (BatchItem.text item))
  | _ => renders env batchCanvas (BatchItem.barcode item)
           (ratio_options bs (ratio es) (BatchItem.text item))
  end.

(** The rows of a batch run that reach the exporter. *)
Definition exported_rows (validate : jsstring -> jsstring -> bool) (env : Env)
  (st : Component) : list BatchItem.t :=
  if context2d env
  then filter (row_renders env (barcodeSettings st) (exportSettings st))
         (valid_rows validate (barcodeSettings st) (batchData st))
  else [].

(** The guards in front of the renderer call of [downloadSingle] (lines
    104-110) and of the preview effect (lines 72-81). *)
Definition download_reaches_renderer (env : Env) (st : Component) : bool :=
  negb (falsy (inputText st)) && falsy (validationError st)
  && mounted env canvasRef && context2d env.

Definition preview_reaches_renderer (env : Env) (st : Component) : bool :=
  negb (falsy (inputText st)) && mounted env previewRef
  && validateBarcode (inputText st) (BarcodeSettings.format (barcodeSettings st)).

(** ** Tabular upload (lines 160-171)

    A row object of the parser is the list of its own properties in
    enumeration order, which is column order for header names that are
    not array indices; every value is a string. *)

Definition jsobject := list (jsstring * jsstring).

(** [row.key]; [None] is [undefined]. *)
Definition get (row : jsobject) (key : jsstring) : option jsstring :=
  match find (fun kv => jsstring_eqb (fst kv) key) row with
  | Some kv => Some (snd kv)
  | None => None
  end.

(** [Object.values(row)[0]] *)
Definition first_value (row : jsobject) : option jsstring :=
  nth_error (map snd row) 0.

(** Truthiness of a value that is a string or [undefined]. *)
Definition truthy (v : option jsstring) : bool :=
  match v with
  | Some s => negb (falsy s)
  | None => false
  end.

(** [a || b] *)
Definition or_else (a b : option jsstring) : option jsstring :=
  if truthy a then a else b.

Module ParsedRow.
Record t := {
  barcode : option jsstring;
  text : option jsstring
}.
End ParsedRow.

(** The callback of [results.data.map] (lines 165-168); [||] associates to
    the left. *)
Definition parse_row (row : jsobject) : ParsedRow.t :=
  {| ParsedRow.barcode :=
       or_else (or_else (get row (js "barcode")) (get row (js "Barcode")))
               (first_value row);
     ParsedRow.text :=
       or_else
         (or_else
            (or_else (or_else (get row (js "text")) (get row (js "Text")))
                     (get row (js "barcode")))
            (get row (js "Barcode")))
         (first_value row) |}.

(** [s.split(sep)] for a separator of one code unit. *)
Fixpoint split_on (sep : code_unit) (s : jsstring) : list jsstring :=
  match s with
  | [] => [[]]
  | c :: s' =>
      if N.eqb c sep then [] :: split_on sep s'
      else
        match split_on sep s' with
        | field :: fields => (c :: field) :: fields
        | [] => [[c]]
        end
  end.

(** ** Row objects and columns

    The own properties of an object enumerate array indices first, in
    ascending order, then the other names in the order of their creation;
    [Object.values] follows that order.  An array index is the canonical
    decimal form of an integer below 2^32 - 1. *)

Definition decimal_digit (c : code_unit) : option N :=
  if N.leb 48 c && N.leb c 57 then Some (c - 48)%N else None.

Fixpoint decimal_value (acc : N) (s : jsstring) : option N :=
  match s with
  | [] => Some acc
  | c :: s' =>
      match decimal_digit c with
      | Some d => decimal_value (10 * acc + d)%N s'
      | None => None
      end
  end.

Definition array_index (name : jsstring) : option N :=
  match name with
  | [] => None
  | c :: rest =>
      if N.eqb c 48
      then match rest with
           | [] => Some 0%N
           | _ :: _ => None
           end
      else match decimal_value 0 name with
           | Some n => if N.ltb n 4294967295 then Some n else None
           | None => None
           end
  end.

(** [o[name] = v] for a name [o] has: the property keeps its place. *)
Fixpoint obj_replace (name v : jsstring) (o : jsobject) : option jsobject :=
  match o with
  | [] => None
  | (name', v') :: o' =>
      if jsstring_eqb name' name then Some ((name', v) :: o')
      else match obj_replace name v o' with
           | Some o'' => Some ((name', v') :: o'')
           | None => None
           end
  end.

(** A new array index goes in front of the larger indices and of every
    other name. *)
Fixpoint insert_index (n : N) (name v : jsstring) (o : jsobject) : jsobject :=
  match o with
  | [] => [(name, v)]
  | (name', v') :: o' =>
      match array_index name' with
      | Some m =>
          if N.ltb n m then (name, v) :: o
          else (name', v') :: insert_index n name v o'
      | None => (name, v) :: o
      end
  end.

(** [o[name] = v] *)
Definition obj_set (o : jsobject) (name v : jsstring) : jsobject :=
  match obj_replace name v o with
  | Some o' => o'
  | None =>
      match array_index name with
      | Some n => insert_index n name v o
      | None => o ++ [(name, v)]
      end
  end.

(** The columns of one line of a file with a header row: the header names
    with the fields of the line, in column order. *)
Definition columns := list (jsstring * jsstring).

(** The row object for a line: [row[name] = field], column by column,
    which is how a header-driven parser fills it. *)
Definition row_object (line : columns) : jsobject :=
  fold_left (fun o kv => obj_set o (fst kv) (snd kv)) line [].

(** What [handleBatchUpload] stores for the lines the parser keeps. *)
Definition csv_rows (lines : list columns) : list ParsedRow.t :=
  map parse_row (map row_object lines).

(** The reading of the specification: the code is the value of the column
    whose name is "barcode" up to case, else of the first column; the label
    that of the column named "text" up to case, else the code; a line
    whose fields are all empty gives no row. *)
Definition to_lower (c : code_unit) : code_unit :=
  if N.leb 65 c && N.leb c 90 then (c + 32)%N else c.

Definition column_ignoring_case (line : columns) (name : jsstring)
  : option jsstring :=
  match find (fun kv => jsstring_eqb (map to_lower (fst kv)) name) line with
  | Some kv => Some (snd kv)
  | None => None
  end.

Definition spec_code (line : columns) : option jsstring :=
  match column_ignoring_case line (js "barcode") with
  | Some v => Some v
  | None => nth_error (map snd line) 0
  end.

Definition spec_label (line : columns) : option jsstring :=
  match column_ignoring_case line (js "text") with
  | Some v => Some v
  | None => spec_code line
  end.

Definition blank_line (line : columns) : bool :=
  forallb (fun kv => falsy (snd kv)) line.

Definition spec_rows (lines : list columns) : list ParsedRow.t :=
  map (fun line => {| ParsedRow.barcode := spec_code line;
                      ParsedRow.text := spec_label line |})
      (filter (fun line => negb (blank_line line)) lines).

Definition newline : string := String "010"%char EmptyString.


(** A line under the header ABCD1234,123 of a file that has no header
    row of its own; a line with two empty fields under barcode,text; a
    line with an empty field under id,barcode. *)
Definition index_header_line : columns :=
  [ (js "ABCD1234", js "EFGH5678"); (js "123", js "456") ].

Definition empty_fields_line : columns :=
  [ (js "barcode", []); (js "text", []) ].

Definition empty_barcode_line : columns :=
  [ (js "id", js "7"); (js "barcode", []) ].

(** A row object, and line, whose code column is spelled in capitals. *)
Definition capitals_row : jsobject :=
  [ (js "text", js "Prodotto A"); (js "BARCODE", js "123456789012") ].

(** ** The initial state *)

(** The initial state of the component (lines 36-57). *)
Definition initial_barcode_settings : BarcodeSettings.t :=
  {| BarcodeSettings.format := js "CODE128";
     BarcodeSettings.width := 2;
     BarcodeSettings.height := 100;
     BarcodeSettings.displayValue := true;
     BarcodeSettings.text := None;
     BarcodeSettings.font := js "monospace";
     BarcodeSettings.fontSize := 20;
     BarcodeSettings.backgroundColor := js "#ffffff";
     BarcodeSettings.lineColor := js "#000000" |}.

Definition initial_export_settings : ExportSettings.t :=
  {| ExportSettings.format := png;
     ExportSettings.resolution := 500;
     ExportSettings.prefix := [];
     ExportSettings.suffix := [] |}.

Definition initial_state : Component :=
  {| inputText := [];
     barcodeSettings := initial_barcode_settings;
     exportSettings := initial_export_settings;
     batchData := [];
     validationError := [];
     isGenerating := false |}.

(** ** The page: batch button and runs in flight

    [generateBatch] is an [async] function: it runs up to its first
    [await], and is resumed later, while other handlers may run in
    between.  The page is the component state together with the
    invocations of [generateBatch] that have not returned yet, each with
    the rows it still has to visit and the settings it closed over.  A
    run is resumed one row at a time, which allows every interleaving the
    [await] of line 249 allows, and more.  A click reaches [generateBatch]
    only through the button, and a state setter called in a click handler
    is committed before the next event is dispatched, as React does for
    discrete events. *)

Record Run := {
  pending : list BatchItem.t;
  run_barcodeSettings : BarcodeSettings.t;
  run_exportSettings : ExportSettings.t
}.

Record Page := {
  component : Component;
  runs : list Run;
  log : list event
}.

Inductive action :=
| Upload (data : list BatchItem.t)
    (* handleBatchUpload reaches setBatchData(data) *)
| ChangeSettings (bs : BarcodeSettings.t) (es : ExportSettings.t)
    (* a control of the settings panel *)
| ClickGenerate
    (* a click on the batch button *)
| Resume (k : nat).
    (* the k-th run in flight continues *)

(** [disabled={!batchData.length || isGenerating}] (lines 570 and 1068) *)
Definition button_disabled (st : Component) : bool :=
  match batchData st with
  | [] => true
  | _ :: _ => false
  end || isGenerating st.

Fixpoint remove_nth {A} (k : nat) (l : list A) : list A :=
  match l, k with
  | [], _ => []
  | _ :: l', O => l'
  | x :: l', S k' => x :: remove_nth k' l'
  end.

Fixpoint replace_nth {A} (k : nat) (y : A) (l : list A) : list A :=
  match l, k with
  | [], _ => []
  | _ :: l', O => y :: l'
  | x :: l', S k' => x :: replace_nth k' y l'
  end.

Definition with_settings (bs : BarcodeSettings.t) (es : ExportSettings.t)
  (st : Component) : Component :=
  {| inputText := inputText st;
     barcodeSettings := bs;
     exportSettings := es;
     batchData := batchData st;
     validationError := validationError st;
     isGenerating := isGenerating st |}.

Section PageSteps.

Variable validate : jsstring -> jsstring -> bool.
Variable env : Env.

(** [generateBatch] from its first line to the head of the loop. *)
Definition start_batch (pg : Page) : Page :=
  let st := component pg in
  match batchData st with
  | [] => pg
  | _ :: _ =>
      if negb (context2d env)
      then {| component := with_isGenerating true st;
              runs := runs pg;
              log := log pg ++ [ SetIsGenerating true ] |}
      else {| component := with_isGenerating true st;
              runs := runs pg ++
                      [ {| pending := batchData st;
                           run_barcodeSettings := barcodeSettings st;
                           run_exportSettings := exportSettings st |} ];
              log := log pg ++ [ SetIsGenerating true;
                                 size_batch_canvas (exportSettings st) ] |}
  end.

(** One more iteration of the loop of a run, or, past the last row,
    [setIsGenerating(false)] and the return. *)
Definition resume (k : nat) (pg : Page) : Page :=
  match nth_error (runs pg) k with
  | None => pg
  | Some r =>
      match pending r with
      | [] =>
          {| component := with_isGenerating false (component pg);
             runs := remove_nth k (runs pg);
             log := log pg ++ [ SetIsGenerating false ] |}
      | item :: rest =>
          {| component := component pg;
             runs := replace_nth k
                       {| pending := rest;
                          run_barcodeSettings := run_barcodeSettings r;
                          run_exportSettings := run_exportSettings r |}
                       (runs pg);
             log := log pg ++ batch_row validate env (run_barcodeSettings r)
                                (run_exportSettings r) item |}
      end
  end.

Definition step (pg : Page) (a : action) : Page :=
  match a with
  | Upload data =>
      {| component := with_batchData data (component pg);
         runs := runs pg;
         log := log pg |}
  | ChangeSettings bs es =>
      {| component := with_settings bs es (component pg);
         runs := runs pg;
         log := log pg |}
  | ClickGenerate =>
      if button_disabled (component pg) then pg else start_batch pg
  | Resume k => resume k pg
  end.

Definition initial_page : Page :=
  {| component := initial_state; runs := []; log := [] |}.

(** The page after a sequence of actions on the freshly mounted one. *)
Definition play (script : list action) : Page :=
  fold_left step script initial_page.

End PageSteps.

(** At most one run is in flight, and while one is, the flag is set. *)
Definition single_run (pg : Page) : Prop :=
  List.length (runs pg) <= 1 /\
  (runs pg <> [] -> isGenerating (component pg) = true).

(** ** Sample states *)

(** A browser in which every call succeeds, and one whose canvases give no
    2D context. *)
Definition working_env : Env :=
  {| context2d := true;
     mounted := fun _ => true;
     renders := fun _ _ _ => true |}.

Definition contextless_env : Env :=
  {| context2d := false;
     mounted := fun _ => true;
     renders := fun _ _ _ => true |}.

Definition row (code label : string) : BatchItem.t :=
  {| BatchItem.barcode := js code; BatchItem.text := Some (js label) |}.

(** A batch of three rows, the middle one not a valid EAN-13. *)
Definition ean13_batch_state : Component :=
  {| inputText := [];
     barcodeSettings :=
       {| BarcodeSettings.format := js "EAN13";
          BarcodeSettings.width := 2;
          BarcodeSettings.height := 100;
          BarcodeSettings.displayValue := true;
          BarcodeSettings.text := None;
          BarcodeSettings.font := js "monospace";
          BarcodeSettings.fontSize := 20;
          BarcodeSettings.backgroundColor := js "#ffffff";
          BarcodeSettings.lineColor := js "#000000" |};
     exportSettings := initial_export_settings;
     batchData := [ row "1234567890123" "A"; row "ABCD1234" "B";
                    row "9876543210987" "C" ];
     validationError := [];
     isGenerating := false |}.

(** A batch whose only row has the empty code, as a CSV line with an empty
    first column gives it, under the initial settings (CODE128). *)
Definition empty_code_state : Component :=
  {| inputText := [];
     barcodeSettings := initial_barcode_settings;
     exportSettings := initial_export_settings;
     batchData := [ row "" "Prodotto A" ];
     validationError := [];
     isGenerating := false |}.

(** Single mode and batch mode set up for
    prefix "IT_", suffix "_v1", code "ABCD1234", format svg, with the
    raster resolution left at 1200 from an earlier selection. *)
Definition it_export_settings : ExportSettings.t :=
  {| ExportSettings.format := svg;
     ExportSettings.resolution := 1200;
     ExportSettings.prefix := js "IT_";
     ExportSettings.suffix := js "_v1" |}.

Definition it_state : Component :=
  {| inputText := js "ABCD1234";
     barcodeSettings := initial_barcode_settings;
     exportSettings := it_export_settings;
     batchData := [ row "ABCD1234" "Codice Speciale" ];
     validationError := [];
     isGenerating := false |}.

(** ** More of the page *)

(** The three numeric symbologies. *)
Definition numeric : list jsstring := [js "EAN13"; js "EAN8"; js "UPC"].



Fixpoint render_labels (tr : list event) : list (option jsstring) :=
  match tr with
  | [] => []
  | JsBarcode _ _ o :: tr' => Options.text o :: render_labels tr'
  | _ :: tr' => render_labels tr'
  end.

Definition with_resolution (r : float) (es : ExportSettings.t)
  : ExportSettings.t :=
  {| ExportSettings.format := ExportSettings.format es;
     ExportSettings.resolution := r;
     ExportSettings.prefix := ExportSettings.prefix es;
     ExportSettings.suffix := ExportSettings.suffix es |}.


(** ** The preview effect of the related document (lines 664-690)

    The early return leaves [validationError] as it is. *)
Definition previewEffect_related (env : Env) (st : Component)
  : Component * list event :=
  let text := inputText st in
  let bs := barcodeSettings st in
  if falsy text || negb (mounted env previewRef)
  then (st, [])
  else if negb (validateBarcode_related text (BarcodeSettings.format bs))
  then
    let msg := js "Invalid format for " ++ BarcodeSettings.format bs in
    (with_validationError msg st, [ SetValidationError msg ])
  else
    let options :=
      plain_options bs (Some (text_or (BarcodeSettings.text bs) text)) in
    if renders env previewRef text options
    then (with_validationError [] st,
          [ SetValidationError []; JsBarcode previewRef text options ])
    else
      let msg := js "Error generating barcode" in
      (with_validationError msg st,
       [ SetValidationError []; JsBarcode previewRef text options;
         SetValidationError msg ]).

(** ** Typing into the text area of single mode

    The render of a state puts the preview [<svg>] in the tree exactly
    when [inputText && !validationError] (lines 488-490 and 1015-1016);
    the hidden canvas is always there (lines 592 and 1080).  React sets
    the refs at commit, then runs the effect if [inputText] or
    [barcodeSettings] changed; a state update made by the effect
    re-renders without running it again. *)

Definition preview_in_tree (st : Component) : bool :=
  negb (falsy (inputText st)) && falsy (validationError st).

(** What the handlers and the effect find after the commit of [st]. *)
Definition committed (env : Env) (st : Component) : Env :=
  {| context2d := context2d env;
     mounted := fun s =>
       match s with
       | previewRef => preview_in_tree st
       | canvasRef => true
       | _ => mounted env s
       end;
     renders := renders env |}.

Definition with_inputText (t : jsstring) (st : Component) : Component :=
  {| inputText := t;
     barcodeSettings := barcodeSettings st;
     exportSettings := exportSettings st;
     batchData := batchData st;
     validationError := validationError st;
     isGenerating := isGenerating st |}.

(** [onChange={(e) => setInputText(e.target.value)}] (lines 470 and 1001)
    followed by the effect it triggers. *)
Definition type_text (effect : Env -> Component -> Component * list event)
  (env : Env) (t : jsstring) (st : Component) : Component * list event :=
  if jsstring_eqb t (inputText st) then (st, [])
  else effect (committed env (with_inputText t st)) (with_inputText t st).

(** A sequence of edits, each with its effect. *)
Fixpoint type_texts (effect : Env -> Component -> Component * list event)
  (env : Env) (ts : list jsstring) (st : Component)
  : Component * list event :=
  match ts with
  | [] => (st, [])
  | t :: ts' =>
      let (st1, tr1) := type_text effect env t st in
      let (st2, tr2) := type_texts effect env ts' st1 in
      (st2, tr1 ++ tr2)
  end.

(** ** Line-oriented upload (lines 173-179 and 758-764)

    [String.prototype.trim] removes the white space and line terminator
    code points of ECMAScript from both ends. *)
Definition is_space (c : code_unit) : bool :=
  existsb (N.eqb c)
    [ 9; 10; 11; 12; 13; 32; 160; 5760; 8232; 8233; 8239; 8287; 12288;
      65279 ]%N
  || (N.leb 8192 c && N.leb c 8202).

Fixpoint trim_start (s : jsstring) : jsstring :=
  match s with
  | [] => []
  | c :: s' => if is_space c then trim_start s' else s
  end.

Definition trim_end (s : jsstring) : jsstring := rev (trim_start (rev s)).

Definition trim (s : jsstring) : jsstring := trim_end (trim_start s).

(** [text.split('\n').filter(line => line.trim()).map(...)] *)
Definition txt_batch (text : jsstring) : list BatchItem.t :=
  map (fun line => {| BatchItem.barcode := trim line;
                      BatchItem.text := Some (trim line) |})
      (filter (fun line => negb (falsy (trim line))) (split_on 10%N text)).

(** The rows of a list of lines: the filter and the map of [txt_batch]. *)
Definition rows_of_lines (lines : list jsstring) : list BatchItem.t :=
  map (fun line => {| BatchItem.barcode := trim line;
                      BatchItem.text := Some (trim line) |})
      (filter (fun line => negb (falsy (trim line))) lines).

(** Lines joined by a separator, as a file holds them. *)
Fixpoint join_lines (sep : jsstring) (lines : list jsstring) : jsstring :=
  match lines with
  | [] => []
  | [line] => line
  | line :: rest => line ++ sep ++ join_lines sep rest
  end.

(** ** The list under "Preview" in batch mode (lines 547-562, 1053-1061)

    [batchData.slice(0, shown)] and, when [batchData.length > shown], the
    line "... and N more", with 10 rows shown in the first document and 5
    in the related one. *)
Definition preview_rows (shown : nat) (data : list BatchItem.t)
  : list BatchItem.t := firstn shown data.

Definition preview_more (shown : nat) (data : list BatchItem.t) : option nat :=
  if Nat.ltb shown (List.length data)
  then Some (List.length data - shown) else None.

(** ** Actions that leave the runs alone *)

Definition is_resume (a : action) : bool :=
  match a with
  | Resume _ => true
  | _ => false
  end.

Definition is_click (a : action) : bool :=
  match a with
  | ClickGenerate => true
  | _ => false
  end.

(** A state in which an invalid Code39 text has been typed and flagged. *)
Definition flagged_state : Component :=
  {| inputText := js "a";
     barcodeSettings :=
       {| BarcodeSettings.format := js "CODE39";
          BarcodeSettings.width := 2;
          BarcodeSettings.height := 100;
          BarcodeSettings.displayValue := true;
          BarcodeSettings.text := None;
          BarcodeSettings.font := js "monospace";
          BarcodeSettings.fontSize := 20;
          BarcodeSettings.backgroundColor := js "#ffffff";
          BarcodeSettings.lineColor := js "#000000" |};
     exportSettings := initial_export_settings;
     batchData := [];
     validationError := js "Invalid format for CODE39";
     isGenerating := false |}.

(** * Properties *)

(** ** Strings and the matcher *)

Lemma jsstring_eqb_eq (a b : jsstring) : jsstring_eqb a b = true <-> a = b.
Proof.
  revert b; induction a as [|x a IH]; intros [|y b]; simpl;
    try (split; [discriminate | congruence]); [tauto|].
  rewrite andb_true_iff, N.eqb_eq, IH.
  split; [intros [-> ->]; reflexivity | intros E; inversion E; auto].
Qed.

Lemma falsy_true (s : jsstring) : falsy s = true <-> s = [].
Proof. destruct s; simpl; split; congruence. Qed.

(** A pattern that starts with [^] matches at index 0 only, so the search
    loop of [test] adds nothing to the attempt at index 0. *)
Lemma search_bol_later (p : pattern) (pos : nat) (s : jsstring) :
  search (TBol :: p) (S pos) s = false.
Proof.
  revert pos; induction s as [|c s IH]; intros pos; simpl; [reflexivity|].
  apply IH.
Qed.

Lemma test_bol (p : pattern) (s : jsstring) :
  test (TBol :: p) s = matches_at p 0 s.
Proof.
  unfold test. destruct s as [|c s]; simpl.
  - now rewrite orb_false_r.
  - now rewrite search_bol_later, orb_false_r.
Qed.

Lemma exactly_eol (n : nat) (a : atom) (pos : nat) (s : jsstring) :
  exactly n a (matches_at [TEol]) pos s = true <->
  List.length s = n /\ Forall (fun c => atom_matches a c = true) s.
Proof.
  revert pos s; induction n as [|n IH]; intros pos s; simpl.
  - rewrite andb_true_r, falsy_true. split.
    + intros ->. split; [reflexivity | constructor].
    + intros [H _]. now destruct s.
  - destruct s as [|c s]; simpl.
    + split; [discriminate | intros [H _]; discriminate].
    + rewrite andb_true_iff, IH. split.
      * intros [Hc [Hl Hf]]. split; [congruence | now constructor].
      * intros [Hl Hf]. inversion Hf; subst. repeat split; auto.
Qed.

Lemma star_eol (a : atom) (pos : nat) (s : jsstring) :
  star a (matches_at [TEol]) pos s = true <->
  Forall (fun c => atom_matches a c = true) s.
Proof.
  revert pos; induction s as [|c s IH]; intros pos; simpl.
  - split; [constructor | reflexivity].
  - rewrite orb_false_r, andb_true_iff, IH. split.
    + intros [Hc Hf]. now constructor.
    + intros Hf. inversion Hf; subst. now split.
Qed.

Lemma digit_matches (c : code_unit) :
  atom_matches ADigit c = true <-> is_digit c.
Proof.
  unfold is_digit; simpl.
  rewrite andb_true_iff, !N.leb_le. reflexivity.
Qed.

Lemma code39_class_matches (c : code_unit) :
  atom_matches code39_class c = true <-> is_code39_char c.
Proof.
  unfold is_code39_char; simpl.
  rewrite !orb_true_iff, !andb_true_iff, !N.leb_le, !N.eqb_eq.
  intuition (subst; auto; try discriminate).
Qed.

Lemma Forall_iff_pointwise {A} (P Q : A -> Prop) (l : list A) :
  (forall x, P x <-> Q x) -> (Forall P l <-> Forall Q l).
Proof.
  intros H; split; intros F; eapply Forall_impl; try eassumption;
    intros x; apply H.
Qed.

Lemma test_digits (n : nat) (s : jsstring) :
  test (digits_pattern n) s = true <-> List.length s = n /\ Forall is_digit s.
Proof.
  unfold digits_pattern. rewrite test_bol. cbn [matches_at].
  rewrite exactly_eol.
  now rewrite (Forall_iff_pointwise _ _ s digit_matches).
Qed.

Lemma test_code39 (s : jsstring) :
  test code39_pattern s = true <-> s <> [] /\ Forall is_code39_char s.
Proof.
  unfold code39_pattern. rewrite test_bol. cbn [matches_at].
  destruct s as [|c s]; cbn [exactly].
  - split; [discriminate | intros [H _]; congruence].
  - rewrite andb_true_iff, star_eol, code39_class_matches.
    rewrite (Forall_iff_pointwise _ _ s code39_class_matches).
    split.
    + intros [Hc Hf]. split; [discriminate | now constructor].
    + intros [_ Hf]. inversion Hf; subst. now split.
Qed.

(** ** The validator *)

Lemma validateBarcode_guard (text format : jsstring) :
  validateBarcode text format =
  if falsy text then false else validateBarcode_related text format.
Proof. reflexivity. Qed.

Lemma related_code128 (s : jsstring) :
  validateBarcode_related s (js "CODE128") = true.
Proof. reflexivity. Qed.

Lemma related_code39 (s : jsstring) :
  validateBarcode_related s (js "CODE39") = test code39_pattern s.
Proof. reflexivity. Qed.

Lemma related_ean13 (s : jsstring) :
  validateBarcode_related s (js "EAN13") = test (digits_pattern 13) s.
Proof. reflexivity. Qed.

Lemma related_ean8 (s : jsstring) :
  validateBarcode_related s (js "EAN8") = test (digits_pattern 8) s.
Proof. reflexivity. Qed.

Lemma related_upc (s : jsstring) :
  validateBarcode_related s (js "UPC") = test (digits_pattern 12) s.
Proof. reflexivity. Qed.

Lemma related_unknown (s f : jsstring) :
  ~ In f supported -> validateBarcode_related s f = false.
Proof.
  intros H. unfold validateBarcode_related, BARCODE_FORMATS.
  cbn [find value].
  repeat match goal with
  | |- context [jsstring_eqb ?a f] =>
      let E := fresh "E" in
      destruct (jsstring_eqb a f) eqn:E;
      [ apply jsstring_eqb_eq in E; exfalso; apply H; rewrite <- E;
        unfold supported; simpl; auto 10
      | clear E ]
  end.
  reflexivity.
Qed.

Lemma guarded_digits (n : nat) (s : jsstring) :
  n <> 0 ->
  (if falsy s then false else test (digits_pattern n) s) = true <->
  List.length s = n /\ Forall is_digit s.
Proof.
  intros Hn. destruct s as [|c s]; simpl falsy; cbv iota.
  - split; [discriminate | intros [H _]; simpl in H; congruence].
  - apply test_digits.
Qed.

(** C2. EAN-13, EAN-8 and UPC-A admit a string exactly when it consists of
    13, 8 and 12 decimal digits; the three sample codes each pass exactly
    one of the three.  Holds for both documents of [page.tsx]. *)
Theorem numeric_symbologies_exact_digits (s : jsstring) :
  (validateBarcode s (js "EAN13") = true <->
     List.length s = 13 /\ Forall is_digit s) /\
  (validateBarcode s (js "EAN8") = true <->
     List.length s = 8 /\ Forall is_digit s) /\
  (validateBarcode s (js "UPC") = true <->
     List.length s = 12 /\ Forall is_digit s) /\
  (validateBarcode_related s (js "EAN13") = true <->
     List.length s = 13 /\ Forall is_digit s) /\
  (validateBarcode_related s (js "EAN8") = true <->
     List.length s = 8 /\ Forall is_digit s) /\
  (validateBarcode_related s (js "UPC") = true <->
     List.length s = 12 /\ Forall is_digit s) /\
  numeric_verdicts validateBarcode (js "1234567890123") = (true, false, false) /\
  numeric_verdicts validateBarcode (js "12345678") = (false, true, false) /\
  numeric_verdicts validateBarcode (js "123456789012") = (false, false, true) /\
  numeric_verdicts validateBarcode_related (js "1234567890123")
    = (true, false, false) /\
  numeric_verdicts validateBarcode_related (js "12345678")
    = (false, true, false) /\
  numeric_verdicts validateBarcode_related (js "123456789012")
    = (false, false, true).
Proof.
  rewrite !validateBarcode_guard, related_ean13, related_ean8, related_upc.
  split; [apply guarded_digits; discriminate|].
  split; [apply guarded_digits; discriminate|].
  split; [apply guarded_digits; discriminate|].
  split; [apply test_digits|].
  split; [apply test_digits|].
  split; [apply test_digits|].
  repeat split.
Qed.

(** The first document rejects every unsupported identifier and the empty
    string, whatever the symbology. *)
Lemma validateBarcode_rejects_unknown_or_empty (s f : jsstring) :
  ~ In f supported \/ s = [] -> validateBarcode s f = false.
Proof.
  rewrite validateBarcode_guard. intros [H | ->]; [|reflexivity].
  destruct (falsy s); [reflexivity | now apply related_unknown].
Qed.

(** The related document rejects every unsupported identifier too. *)
Lemma validateBarcode_related_rejects_unknown (s f : jsstring) :
  ~ In f supported -> validateBarcode_related s f = false.
Proof. apply related_unknown. Qed.

(** C3. The related document (lines 656-661) has no empty-string guard, and
    Code128's predicate is constantly true: there the empty string is
    admitted for CODE128, while the first document (lines 63-68) rejects
    it.  A CSV line with an empty first column gives a row with the empty
    code; the batch run of the related document hands it to the renderer,
    that of the first document warns and skips it. *)
Theorem related_validator_admits_empty_code128 :
  validateBarcode_related [] (js "CODE128") = true /\
  validateBarcode [] (js "CODE128") = false /\
  ParsedRow.barcode
    (parse_row [ (js "barcode", []); (js "text", js "Prodotto A") ])
    = Some [] /\
  render_attempts (snd (generateBatch_related working_env empty_code_state))
    = [ [] ] /\
  render_attempts (snd (generateBatch working_env empty_code_state)) = [] /\
  warnings (snd (generateBatch working_env empty_code_state))
    = [ js "Invalid barcode: " ].
Proof. repeat split. Qed.

(** C4. Code39 admits a string exactly when it is non-empty and all of its
    characters are digits, upper-case letters, space or one of
    [- . $ / + %]; ["abc"] is rejected, ["ABC-123"] admitted.  Holds for
    both documents. *)
Theorem code39_exact_charset (s : jsstring) :
  (validateBarcode s (js "CODE39") = true <->
     s <> [] /\ Forall is_code39_char s) /\
  (validateBarcode_related s (js "CODE39") = true <->
     s <> [] /\ Forall is_code39_char s) /\
  validateBarcode (js "abc") (js "CODE39") = false /\
  validateBarcode (js "ABC-123") (js "CODE39") = true /\
  validateBarcode_related (js "abc") (js "CODE39") = false /\
  validateBarcode_related (js "ABC-123") (js "CODE39") = true.
Proof.
  rewrite validateBarcode_guard, related_code39.
  split.
  - destruct s as [|c s]; simpl falsy; cbv iota; [|apply test_code39].
    split; [discriminate | intros [H _]; congruence].
  - split; [apply test_code39 | repeat split].
Qed.

(** C5. Code128 admits every non-empty string, in both documents. *)
Theorem code128_admits_nonempty (s : jsstring) (H : s <> []) :
  validateBarcode s (js "CODE128") = true /\
  validateBarcode_related s (js "CODE128") = true.
Proof.
  rewrite validateBarcode_guard, related_code128.
  destruct s; [congruence | split; reflexivity].
Qed.

(** ["héllo!"] is admitted as Code128. *)
Lemma code128_admits_nonempty_witness :
  validateBarcode hello_accented (js "CODE128") = true /\
  validateBarcode_related hello_accented (js "CODE128") = true.
Proof. apply (@code128_admits_nonempty hello_accented). discriminate. Defined.

(** ... and fails the predicate of each of the other four symbologies. *)
Lemma hello_accented_fails_others :
  map (validateBarcode hello_accented)
      [js "CODE39"; js "EAN13"; js "EAN8"; js "UPC"]
    = [false; false; false; false] /\
  map (validateBarcode_related hello_accented)
      [js "CODE39"; js "EAN13"; js "EAN8"; js "UPC"]
    = [false; false; false; false].
Proof. split; reflexivity. Qed.

(** The empty string fails each of the four patterns. *)
Lemma related_rejects_empty_other (f : jsstring) :
  f <> js "CODE128" -> validateBarcode_related [] f = false.
Proof.
  intros Hf. unfold validateBarcode_related, BARCODE_FORMATS.
  cbn [find value].
  destruct (jsstring_eqb (js "CODE128") f) eqn:E.
  - apply jsstring_eqb_eq in E. congruence.
  - repeat match goal with
    | |- context [jsstring_eqb ?a f] =>
        destruct (jsstring_eqb a f); [reflexivity|]
    end.
    reflexivity.
Qed.

(** C10, as stated, fails: on the empty string with CODE128 the guarded
    validator rejects and the unguarded one admits. *)
Lemma validators_differ_on_empty_code128 :
  ~ (forall text format : jsstring,
       validateBarcode text format = validateBarcode_related text format).
Proof.
  intros H. specialize (H [] (js "CODE128")). discriminate H.
Qed.

(** C10, amended. The two validators return the same result on every pair
    other than the empty string with CODE128. *)
Theorem validators_agree_off_empty_code128 (text format : jsstring)
  (H : text <> [] \/ format <> js "CODE128") :
  validateBarcode text format = validateBarcode_related text format.
Proof.
  rewrite validateBarcode_guard. destruct text as [|c text]; simpl falsy;
    cbv iota; [|reflexivity].
  destruct H as [H | H]; [congruence|].
  symmetry. now apply related_rejects_empty_other.
Qed.

Lemma validators_agree_off_empty_code128_witness :
  validateBarcode [] (js "EAN13") = validateBarcode_related [] (js "EAN13") /\
  validateBarcode (js "ABC-123") (js "CODE128")
    = validateBarcode_related (js "ABC-123") (js "CODE128").
Proof.
  split; apply validators_agree_off_empty_code128;
    [right | left]; discriminate.
Defined.

(** ** Traces *)

Lemma render_attempts_app (a b : list event) :
  render_attempts (a ++ b) = render_attempts a ++ render_attempts b.
Proof.
  induction a as [|e a IH]; simpl; [reflexivity|].
  destruct e; simpl; rewrite IH; reflexivity.
Qed.

Lemma export_filenames_app (a b : list event) :
  export_filenames (a ++ b) = export_filenames a ++ export_filenames b.
Proof.
  induction a as [|e a IH]; simpl; [reflexivity|].
  destruct e; simpl; rewrite IH; reflexivity.
Qed.

Lemma warnings_app (a b : list event) :
  warnings (a ++ b) = warnings a ++ warnings b.
Proof.
  induction a as [|e a IH]; simpl; [reflexivity|].
  destruct e; simpl; rewrite IH; reflexivity.
Qed.

Lemma render_sizes_app (a b : list event) :
  render_sizes (a ++ b) = render_sizes a ++ render_sizes b.
Proof.
  induction a as [|e a IH]; simpl; [reflexivity|].
  destruct e; simpl; rewrite IH; reflexivity.
Qed.

(** ** The batch loop *)

Section BatchLoop.

Variable validate : jsstring -> jsstring -> bool.
Variable env : Env.
Variable bs : BarcodeSettings.t.
Variable es : ExportSettings.t.

Lemma export_row_attempt (item : BatchItem.t) :
  render_attempts (export_row env bs es item) = [BatchItem.barcode item].
Proof.
  unfold export_row.
  destruct (ExportSettings.format es); simpl;
    match goal with |- context [renders ?e ?t ?c ?o] =>
      destruct (renders e t c o) end; reflexivity.
Qed.

Lemma export_row_no_warning (item : BatchItem.t) :
  warnings (export_row env bs es item) = [].
Proof.
  unfold export_row.
  destruct (ExportSettings.format es); simpl;
    match goal with |- context [renders ?e ?t ?c ?o] =>
      destruct (renders e t c o) end; reflexivity.
Qed.

Lemma export_row_filenames (item : BatchItem.t) :
  export_filenames (export_row env bs es item) =
  if row_renders env bs es item
  then [export_name es (BatchItem.barcode item)] else [].
Proof.
  unfold export_row, row_renders, export_name, filename.
  destruct (ExportSettings.format es); simpl;
    match goal with |- context [renders ?e ?t ?c ?o] =>
      destruct (renders e t c o) end; reflexivity.
Qed.

Lemma batch_loop_attempts (items : list BatchItem.t) :
  render_attempts (batch_loop validate env bs es items) =
  map BatchItem.barcode (valid_rows validate bs items).
Proof.
  induction items as [|item items IH]; simpl; [reflexivity|].
  rewrite render_attempts_app, IH. unfold batch_row.
  destruct (validate (BatchItem.barcode item) (BarcodeSettings.format bs));
    simpl; [now rewrite export_row_attempt | reflexivity].
Qed.

Lemma batch_loop_warnings (items : list BatchItem.t) :
  warnings (batch_loop validate env bs es items) =
  map (fun item => js "Invalid barcode: " ++ BatchItem.barcode item)
      (invalid_rows validate bs items).
Proof.
  induction items as [|item items IH]; simpl; [reflexivity|].
  rewrite warnings_app, IH. unfold batch_row.
  destruct (validate (BatchItem.barcode item) (BarcodeSettings.format bs));
    simpl; [now rewrite export_row_no_warning | reflexivity].
Qed.

Lemma batch_loop_filenames (items : list BatchItem.t) :
  export_filenames (batch_loop validate env bs es items) =
  map (fun item => export_name es (BatchItem.barcode item))
      (filter (row_renders env bs es) (valid_rows validate bs items)).
Proof.
  induction items as [|item items IH]; simpl; [reflexivity|].
  rewrite export_filenames_app, IH. unfold batch_row.
  destruct (validate (BatchItem.barcode item) (BarcodeSettings.format bs));
    simpl; [|reflexivity].
  rewrite export_row_filenames.
  destruct (row_renders env bs es item); reflexivity.
Qed.

Lemma valid_invalid_partition (items : list BatchItem.t) :
  List.length (valid_rows validate bs items)
  + List.length (invalid_rows validate bs items) = List.length items.
Proof.
  unfold valid_rows, invalid_rows.
  induction items as [|item items IH]; cbn [filter]; [reflexivity|].
  destruct (validate (BatchItem.barcode item) (BarcodeSettings.format bs));
    cbn [negb List.length]; lia.
Qed.

Lemma valid_invalid_count (items : list BatchItem.t) :
  List.length (valid_rows validate bs items) =
  List.length items - List.length (invalid_rows validate bs items).
Proof. pose proof (valid_invalid_partition items). lia. Qed.

End BatchLoop.

(** Without the 2D context the handler returns at line 194: the flag has
    been set, the loop is never entered and the flag is not reset. *)
Lemma batch_without_context_returns_early
  (validate : jsstring -> jsstring -> bool) (env : Env) (st : Component) :
  context2d env = false -> batchData st <> [] ->
  generateBatch_with validate env st
  = (with_isGenerating true st, [ SetIsGenerating true ]).
Proof.
  intros Hctx Hdata. unfold generateBatch_with. rewrite Hctx.
  destruct (batchData st); [congruence | reflexivity].
Qed.

(** C1, as stated, fails: when the fresh canvas gives no 2D context the
    handler returns at line 194, after [setIsGenerating(true)] and before
    the loop, so a batch of one valid row sees no attempt. *)
Lemma batch_without_context_attempts_nothing :
  ~ (forall (env : Env) (st : Component),
       isGenerating st = false ->
       List.length (render_attempts (snd (generateBatch env st))) =
         List.length (batchData st)
         - List.length (invalid_rows validateBarcode (barcodeSettings st)
                          (batchData st))
       /\ isGenerating (fst (generateBatch env st)) = false).
Proof.
  intros H.
  destruct (H contextless_env it_state eq_refl) as [Hn _].
  vm_compute in Hn. discriminate Hn.
Qed.

(** C1, amended. A batch run that obtains the 2D context of its canvas,
    started from Idle on N rows of which M fail validation, invokes the
    renderer exactly N-M times, once per valid row and in row order, warns
    once per invalid row, hands the exporter one file per row whose
    rendering succeeds, and ends with [isGenerating = false].  Holds for
    the validator of either document. *)
Theorem batch_attempts_one_per_valid_row
  (validate : jsstring -> jsstring -> bool) (env : Env) (st : Component)
  (Hctx : context2d env = true) (Hidle : isGenerating st = false) :
  let run := generateBatch_with validate env st in
  let valid := valid_rows validate (barcodeSettings st) (batchData st) in
  let invalid := invalid_rows validate (barcodeSettings st) (batchData st) in
  render_attempts (snd run) = map BatchItem.barcode valid /\
  List.length (render_attempts (snd run)) =
    List.length (batchData st) - List.length invalid /\
  warnings (snd run) =
    map (fun item => js "Invalid barcode: " ++ BatchItem.barcode item) invalid /\
  export_filenames (snd run) =
    map (fun item => export_name (exportSettings st) (BatchItem.barcode item))
        (filter (row_renders env (barcodeSettings st) (exportSettings st))
                valid) /\
  isGenerating (fst run) = false.
Proof.
  cbv zeta. unfold generateBatch_with. rewrite Hctx.
  destruct (batchData st) as [|item items] eqn:Hdata.
  - simpl. auto.
  - cbn [negb fst snd isGenerating with_isGenerating].
    rewrite !render_attempts_app, !warnings_app, !export_filenames_app.
    rewrite batch_loop_attempts, batch_loop_warnings, batch_loop_filenames.
    cbn [render_attempts warnings export_filenames app size_batch_canvas].
    rewrite !app_nil_r.
    repeat split.
    rewrite length_map. apply valid_invalid_count.
Qed.

Lemma batch_attempts_one_per_valid_row_witness :
  render_attempts (snd (generateBatch working_env ean13_batch_state))
    = [js "1234567890123"; js "9876543210987"] /\
  List.length (render_attempts (snd (generateBatch working_env ean13_batch_state)))
    = 3 - 1 /\
  warnings (snd (generateBatch working_env ean13_batch_state))
    = [js "Invalid barcode: ABCD1234"] /\
  export_filenames (snd (generateBatch working_env ean13_batch_state))
    = [js "1234567890123.png"; js "9876543210987.png"] /\
  isGenerating (fst (generateBatch working_env ean13_batch_state)) = false.
Proof.
  exact (@batch_attempts_one_per_valid_row validateBarcode working_env
           ean13_batch_state eq_refl eq_refl).
Defined.

Lemma batch_loop_sizes (validate : jsstring -> jsstring -> bool) (env : Env)
  (bs : BarcodeSettings.t) (es : ExportSettings.t) (items : list BatchItem.t) :
  render_sizes (batch_loop validate env bs es items) =
  repeat (match ExportSettings.format es with
          | svg => (batchSvg, configured_sizes bs)
          | _ => (batchCanvas, scaled_sizes bs (ratio es))
          end)
         (List.length (valid_rows validate bs items)).
Proof.
  induction items as [|item items IH]; simpl; [reflexivity|].
  rewrite render_sizes_app, IH. unfold batch_row.
  destruct (validate (BatchItem.barcode item) (BarcodeSettings.format bs));
    simpl; [|reflexivity].
  f_equal. unfold export_row.
  destruct (ExportSettings.format es); simpl;
    match goal with |- context [renders ?e ?t ?c ?o] =>
      destruct (renders e t c o) end; reflexivity.
Qed.

(** ** File names *)

(** C6. Every file name handed to the exporter is
    prefix + code + suffix + "." + format: in single mode the code is the
    input text, in batch mode the code of the row, one name per row that
    passes validation and rendering, in row order; with prefix "IT_",
    suffix "_v1", code "ABCD1234" and format svg the name is
    "IT_ABCD1234_v1.svg". *)
Theorem export_filename_prefix_code_suffix_format
  (validate : jsstring -> jsstring -> bool) (env : Env) (st : Component) :
  (export_filenames (downloadSingle env st) = [] \/
   export_filenames (downloadSingle env st)
     = [export_name (exportSettings st) (inputText st)]) /\
  export_filenames (snd (generateBatch_with validate env st))
    = map (fun item => export_name (exportSettings st) (BatchItem.barcode item))
          (exported_rows validate env st) /\
  export_name it_export_settings (js "ABCD1234") = js "IT_ABCD1234_v1.svg" /\
  export_filenames (downloadSingle working_env it_state)
    = [js "IT_ABCD1234_v1.svg"] /\
  export_filenames (snd (generateBatch working_env it_state))
    = [js "IT_ABCD1234_v1.svg"].
Proof.
  split; [|split; [|repeat split]].
  - unfold downloadSingle, export_name, filename.
    destruct (falsy (inputText st) || negb (falsy (validationError st)));
      [now left|].
    destruct (negb (mounted env canvasRef)); [now left|].
    destruct (negb (context2d env)); [now left|].
    cbn [export_filenames].
    match goal with |- context [renders ?e ?t ?c ?o] =>
      destruct (renders e t c o) end; cbn [negb]; [|now left].
    destruct (ExportSettings.format (exportSettings st));
      try (right; reflexivity).
    destruct (mounted env previewRef); [right | left]; reflexivity.
  - unfold generateBatch_with, exported_rows.
    destruct (batchData st) as [|item items] eqn:Hdata.
    + simpl. destruct (context2d env); reflexivity.
    + destruct (context2d env); [|reflexivity].
      cbn [negb snd]. rewrite !export_filenames_app, batch_loop_filenames.
      cbn [export_filenames app size_batch_canvas]. now rewrite app_nil_r.
Qed.

(** ** Sizes handed to the renderer *)

(** C8, as stated, fails in single mode: [downloadSingle] calls the
    renderer on the hidden canvas with the multiplied sizes before it looks
    at the output format, so with format svg and resolution 1200 the
    renderer is invoked with sizes other than the configured ones. *)
Lemma single_svg_download_renders_scaled :
  ~ (forall (env : Env) (st : Component),
       ExportSettings.format (exportSettings st) = svg ->
       Forall (fun r => snd r = configured_sizes (barcodeSettings st))
              (render_sizes (downloadSingle env st))).
Proof.
  intros H. specialize (H working_env it_state eq_refl).
  vm_compute in H. inversion H as [|r rs Hhd _]; subst.
  apply (f_equal (fun sz => PrimFloat.eqb (snd sz) 20)) in Hhd.
  vm_compute in Hhd. discriminate Hhd.
Qed.

(** C8, amended. In a batch run every renderer invocation is on a fresh
    SVG element with the configured sizes when the output format is svg,
    and on the batch canvas with the sizes multiplied by resolution / 500
    when it is png or jpg, one invocation per valid row.  In single mode
    [downloadSingle] invokes the renderer on the hidden canvas with the
    multiplied sizes whatever the output format; for svg the payload it
    saves is the preview element, and the preview effect, the only
    renderer of that element, uses the configured sizes. *)
Theorem renderer_sizes_by_mode
  (validate : jsstring -> jsstring -> bool) (env : Env) (st : Component) :
  let bs := barcodeSettings st in
  let es := exportSettings st in
  render_sizes (snd (generateBatch_with validate env st))
    = repeat (match ExportSettings.format es with
              | svg => (batchSvg, configured_sizes bs)
              | _ => (batchCanvas, scaled_sizes bs (ratio es))
              end)
             (if context2d env
              then List.length (valid_rows validate bs (batchData st))
              else 0) /\
  render_sizes (downloadSingle env st)
    = (if download_reaches_renderer env st
       then [(canvasRef, scaled_sizes bs (ratio es))] else []) /\
  Forall (fun payload => payload = match ExportSettings.format es with
                                   | svg => previewRef
                                   | _ => canvasRef
                                   end)
         (export_payloads (downloadSingle env st)) /\
  render_sizes (snd (previewEffect env st))
    = (if preview_reaches_renderer env st
       then [(previewRef, configured_sizes bs)] else []).
Proof.
  cbv zeta. repeat apply conj.
  - unfold generateBatch_with.
    destruct (batchData st) as [|item items] eqn:Hdata.
    + destruct (context2d env); reflexivity.
    + destruct (context2d env); [|reflexivity].
      cbn [negb snd]. rewrite !render_sizes_app, batch_loop_sizes.
      cbn [render_sizes app size_batch_canvas]. now rewrite app_nil_r.
  - unfold downloadSingle, download_reaches_renderer.
    destruct (falsy (inputText st)); [reflexivity|].
    destruct (falsy (validationError st)); [|reflexivity].
    destruct (mounted env canvasRef); [|reflexivity].
    destruct (context2d env); [|reflexivity].
    cbn [negb orb andb render_sizes].
    match goal with |- context [renders ?e ?t ?c ?o] =>
      destruct (renders e t c o) end; cbn [negb].
    + destruct (ExportSettings.format (exportSettings st)); try reflexivity.
      destruct (mounted env previewRef); reflexivity.
    + reflexivity.
  - unfold downloadSingle.
    destruct (falsy (inputText st) || negb (falsy (validationError st)));
      [constructor|].
    destruct (negb (mounted env canvasRef)); [constructor|].
    destruct (negb (context2d env)); [constructor|].
    cbn [export_payloads].
    match goal with |- context [renders ?e ?t ?c ?o] =>
      destruct (renders e t c o) end; cbn [negb]; [|constructor].
    destruct (ExportSettings.format (exportSettings st));
      try (repeat constructor).
    destruct (mounted env previewRef); repeat constructor.
  - unfold previewEffect, preview_reaches_renderer.
    destruct (falsy (inputText st)); [reflexivity|].
    destruct (mounted env previewRef); [|reflexivity].
    cbn [negb orb andb].
    destruct (validateBarcode (inputText st)
                (BarcodeSettings.format (barcodeSettings st)));
      [|reflexivity].
    cbn [negb].
    match goal with |- context [renders ?e ?t ?c ?o] =>
      destruct (renders e t c o) end; reflexivity.
Qed.

(** With the settings of the samples: a png batch at resolution 500 hands
    the renderer the configured sizes times 1, an svg batch the configured
    sizes, and an svg download in single mode the sizes times 1200 / 500. *)
Lemma renderer_sizes_samples :
  render_sizes (snd (generateBatch working_env ean13_batch_state))
    = [ (batchCanvas, (2 * (500 / 500), 100 * (500 / 500), 20 * (500 / 500)));
        (batchCanvas, (2 * (500 / 500), 100 * (500 / 500), 20 * (500 / 500))) ]%float /\
  render_sizes (snd (generateBatch working_env it_state))
    = [ (batchSvg, (2, 100, 20)) ]%float /\
  render_sizes (downloadSingle working_env it_state)
    = [ (canvasRef, (2 * (1200 / 500), 100 * (1200 / 500), 20 * (1200 / 500))) ]%float.
Proof. repeat split. Qed.

(** ** Runs in flight *)

Section PageInvariant.

Variable validate : jsstring -> jsstring -> bool.
Variable env : Env.

Lemma play_snoc (script : list action) (a : action) :
  play validate env (script ++ [a])
  = step validate env (play validate env script) a.
Proof. unfold play. now rewrite fold_left_app. Qed.

Lemma button_enabled_inv (st : Component) :
  button_disabled st = false -> batchData st <> [] /\ isGenerating st = false.
Proof.
  unfold button_disabled. destruct (batchData st); simpl; [discriminate|].
  intros ->. split; [discriminate | reflexivity].
Qed.

Lemma start_batch_single_run (pg : Page) :
  runs pg = [] -> single_run (start_batch env pg).
Proof.
  intros Hruns. unfold start_batch, single_run.
  destruct (batchData (component pg)); [rewrite Hruns; simpl; split; [lia | congruence]|].
  destruct (negb (context2d env)); simpl; rewrite Hruns; simpl;
    split; try lia; congruence.
Qed.

Lemma resume_single_run (k : nat) (pg : Page) :
  single_run pg -> single_run (resume validate env k pg).
Proof.
  intros [Hlen Hflag]. unfold resume.
  destruct (nth_error (runs pg) k) as [r|] eqn:Hk; [|now split].
  destruct (runs pg) as [|r0 [|r1 rs]] eqn:Hruns;
    [destruct k; discriminate Hk | | simpl in Hlen; lia].
  destruct k as [|k]; [|destruct k; discriminate Hk].
  destruct (pending r); unfold single_run; simpl.
  - split; [lia | congruence].
  - split; [lia | intros _; apply Hflag; discriminate].
Qed.

Lemma step_single_run (pg : Page) (a : action) :
  single_run pg -> single_run (step validate env pg a).
Proof.
  intros Hinv. destruct a as [data | bs es | | k]; simpl.
  - exact Hinv.
  - exact Hinv.
  - destruct (button_disabled (component pg)) eqn:Hb; [exact Hinv|].
    apply start_batch_single_run.
    destruct (button_enabled_inv _ Hb) as [_ Hidle].
    destruct Hinv as [_ Hflag].
    destruct (runs pg); [reflexivity|].
    rewrite Hflag in Hidle; [discriminate Hidle | discriminate].
  - now apply resume_single_run.
Qed.

Lemma play_single_run (script : list action) :
  single_run (play validate env script).
Proof.
  induction script as [|a script IH] using rev_ind.
  - unfold play, single_run; simpl. split; [lia | congruence].
  - rewrite play_snoc. now apply step_single_run.
Qed.

(** The flag goes from false to true only through a click on the enabled
    button, and from true to false only when a run returns. *)
Lemma isGenerating_transitions (pg : Page) (a : action) :
  (isGenerating (component pg) = false ->
   isGenerating (component (step validate env pg a)) = true ->
   a = ClickGenerate /\ button_disabled (component pg) = false) /\
  (isGenerating (component pg) = true ->
   isGenerating (component (step validate env pg a)) = false ->
   exists k r, a = Resume k /\ nth_error (runs pg) k = Some r
               /\ pending r = []).
Proof.
  destruct a as [data | bs es | | k]; simpl.
  - split; congruence.
  - split; congruence.
  - destruct (button_disabled (component pg)) eqn:Hb.
    + split; congruence.
    + split; [auto|]. intros Ht. unfold button_disabled in Hb.
      rewrite Ht, orb_true_r in Hb. discriminate Hb.
  - unfold resume.
    destruct (nth_error (runs pg) k) as [r|] eqn:Hk; [|split; congruence].
    destruct (pending r) eqn:Hp; simpl.
    + split; [congruence|]. intros _ _. now exists k, r.
    + split; congruence.
Qed.

(** Resuming a run until it returns appends the events of the loop and
    resets the flag. *)
Lemma resume_to_completion (items : list BatchItem.t) :
  forall (pg : Page) (bs : BarcodeSettings.t) (es : ExportSettings.t),
    runs pg = [ {| pending := items;
                   run_barcodeSettings := bs;
                   run_exportSettings := es |} ] ->
    fold_left (step validate env)
              (repeat (Resume 0) (S (List.length items))) pg
    = {| component := with_isGenerating false (component pg);
         runs := [];
         log := log pg ++ batch_loop validate env bs es items
                ++ [ SetIsGenerating false ] |}.
Proof.
  induction items as [|item items IH]; intros pg bs es Hruns.
  - simpl. unfold resume. rewrite Hruns. reflexivity.
  - change (repeat (Resume 0) (S (List.length (item :: items))))
      with (Resume 0 :: repeat (Resume 0) (S (List.length items))).
    cbn [fold_left step]. unfold resume at 1. rewrite Hruns.
    cbn [nth_error pending run_barcodeSettings run_exportSettings
         replace_nth].
    rewrite (IH _ bs es) by reflexivity. cbn [component log batch_loop].
    now rewrite <- !app_assoc.
Qed.

Lemma resume_nothing_in_flight (n : nat) (pg : Page) :
  runs pg = [] ->
  fold_left (step validate env) (repeat (Resume 0) n) pg = pg.
Proof.
  intros Hruns. induction n as [|n IH]; [reflexivity|].
  cbn [repeat fold_left step]. unfold resume at 1. rewrite Hruns.
  exact IH.
Qed.

(** A click on the enabled button followed by the resumptions of the run
    it starts is one call of [generateBatch]: same final state, same
    events. *)
Lemma batch_run_is_generateBatch (pg : Page) :
  runs pg = [] ->
  button_disabled (component pg) = false ->
  let pg' :=
    fold_left (step validate env)
      (ClickGenerate ::
       repeat (Resume 0) (S (List.length (batchData (component pg))))) pg in
  component pg' = fst (generateBatch_with validate env (component pg)) /\
  log pg' = log pg ++ snd (generateBatch_with validate env (component pg)) /\
  runs pg' = [].
Proof.
  intros Hruns Hb. cbv zeta. cbn [fold_left step]. rewrite Hb.
  unfold start_batch, generateBatch_with.
  destruct (batchData (component pg)) as [|item items] eqn:Hdata.
  - unfold button_disabled in Hb. rewrite Hdata in Hb. discriminate Hb.
  - destruct (negb (context2d env)).
    + rewrite resume_nothing_in_flight by exact Hruns.
      repeat split. exact Hruns.
    + rewrite Hruns. cbn [app].
      erewrite resume_to_completion by reflexivity.
      cbn [component log runs fst snd]. repeat split.
      now rewrite <- !app_assoc.
Qed.

End PageInvariant.

(** After any sequence of uploads, settings changes, clicks on the
    batch button and resumptions, at most one batch run is in flight;
    while one is, [isGenerating] is true; while [isGenerating] is true a
    click on the batch button changes nothing, the button being disabled;
    and the flag only ever goes from false to true by a click on the
    enabled button and from true to false by a run returning.  Holds for
    the validator of either document. *)
Theorem no_overlapping_batch_runs
  (validate : jsstring -> jsstring -> bool) (env : Env)
  (script : list action) :
  let pg := play validate env script in
  List.length (runs pg) <= 1 /\
  (runs pg <> [] -> isGenerating (component pg) = true) /\
  (isGenerating (component pg) = true ->
   step validate env pg ClickGenerate = pg) /\
  (forall a : action,
     (isGenerating (component pg) = false ->
      isGenerating (component (step validate env pg a)) = true ->
      a = ClickGenerate /\ button_disabled (component pg) = false) /\
     (isGenerating (component pg) = true ->
      isGenerating (component (step validate env pg a)) = false ->
      exists k r, a = Resume k /\ nth_error (runs pg) k = Some r
                  /\ pending r = [])).
Proof.
  cbv zeta. destruct (play_single_run validate env script) as [Hlen Hflag].
  split; [exact Hlen|]. split; [exact Hflag|]. split.
  - intros Ht. simpl. unfold button_disabled. now rewrite Ht, orb_true_r.
  - intros a. apply isGenerating_transitions.
Qed.

(** A batch of three rows, uploaded and started, and resumed once: one run
    in flight, the flag set, and a further click without effect. *)
Lemma no_overlapping_batch_runs_witness :
  let pg := play validateBarcode working_env
              [ Upload (batchData ean13_batch_state); ClickGenerate;
                Resume 0; ClickGenerate ] in
  List.length (runs pg) = 1 /\
  isGenerating (component pg) = true /\
  step validateBarcode working_env pg ClickGenerate = pg.
Proof.
  cbv zeta.
  destruct (no_overlapping_batch_runs validateBarcode working_env
              [ Upload (batchData ean13_batch_state); ClickGenerate;
                Resume 0; ClickGenerate ]) as (Hlen & Hflag & Hclick & _).
  split; [reflexivity|].
  split; [apply Hflag; discriminate | apply Hclick; reflexivity].
Defined.

(** ** Tabular upload *)






(** What the handler stores, and what the specification reads, for each
    of the four lines. *)
Lemma tabular_upload_samples :
  csv_rows [ capitals_row ]
    = [ {| ParsedRow.barcode := Some (js "Prodotto A");
           ParsedRow.text := Some (js "Prodotto A") |} ] /\
  spec_rows [ capitals_row ]
    = [ {| ParsedRow.barcode := Some (js "123456789012");
           ParsedRow.text := Some (js "Prodotto A") |} ] /\
  row_object index_header_line
    = [ (js "123", js "456"); (js "ABCD1234", js "EFGH5678") ] /\
  csv_rows [ index_header_line ]
    = [ {| ParsedRow.barcode := Some (js "456");
           ParsedRow.text := Some (js "456") |} ] /\
  spec_rows [ index_header_line ]
    = [ {| ParsedRow.barcode := Some (js "EFGH5678");
           ParsedRow.text := Some (js "EFGH5678") |} ] /\
  csv_rows [ empty_fields_line ]
    = [ {| ParsedRow.barcode := Some []; ParsedRow.text := Some [] |} ] /\
  spec_rows [ empty_fields_line ] = [] /\
  csv_rows [ empty_barcode_line ]
    = [ {| ParsedRow.barcode := Some (js "7");
           ParsedRow.text := Some (js "7") |} ] /\
  spec_rows [ empty_barcode_line ]
    = [ {| ParsedRow.barcode := Some []; ParsedRow.text := Some [] |} ].
Proof. repeat split. Qed.



(** * Further properties *)

(** ** The validator across symbologies *)

(** "EAN13" and the empty string, "QR" and any string: rejected. *)
Lemma validateBarcode_rejects_unknown_or_empty_witness :
  validateBarcode [] (js "EAN13") = false /\
  validateBarcode (js "12345678") (js "QR") = false.
Proof.
  split; apply validateBarcode_rejects_unknown_or_empty.
  - right. reflexivity.
  - left. unfold supported. simpl. intuition discriminate.
Defined.

Lemma numeric_cases (f : jsstring) :
  In f numeric -> f = js "EAN13" \/ f = js "EAN8" \/ f = js "UPC".
Proof. unfold numeric; simpl; intuition auto. Qed.

Lemma related_numeric_digits (s f : jsstring) :
  In f numeric -> validateBarcode_related s f = true ->
  Forall is_digit s /\
  (f = js "EAN13" /\ List.length s = 13 \/
   f = js "EAN8" /\ List.length s = 8 \/
   f = js "UPC" /\ List.length s = 12).
Proof.
  intros Hf Hv. destruct (@numeric_cases f Hf) as [-> | [-> | ->]].
  - rewrite related_ean13 in Hv. apply test_digits in Hv. intuition.
  - rewrite related_ean8 in Hv. apply test_digits in Hv. intuition.
  - rewrite related_upc in Hv. apply test_digits in Hv. intuition.
Qed.

Lemma guard_implies_related (s f : jsstring) :
  validateBarcode s f = true ->
  s <> [] /\ validateBarcode_related s f = true.
Proof.
  rewrite validateBarcode_guard. destruct s; simpl; [discriminate|].
  intros H. split; [discriminate | exact H].
Qed.

Lemma related_implies_guard (s f : jsstring) :
  s <> [] -> validateBarcode_related s f = true -> validateBarcode s f = true.
Proof.
  rewrite validateBarcode_guard. destruct s; simpl; [congruence | auto].
Qed.

(** No string is admitted by two of EAN-13, EAN-8 and UPC-A, in either
    document. *)
Theorem numeric_symbologies_exclusive (s f g : jsstring)
  (Hf : In f numeric) (Hg : In g numeric) :
  (validateBarcode s f = true -> validateBarcode s g = true -> f = g) /\
  (validateBarcode_related s f = true ->
   validateBarcode_related s g = true -> f = g).
Proof.
  assert (Hrel : validateBarcode_related s f = true ->
                 validateBarcode_related s g = true -> f = g).
  { intros Hvf Hvg.
    destruct (@related_numeric_digits s f Hf Hvf) as [_ Hlf].
    destruct (@related_numeric_digits s g Hg Hvg) as [_ Hlg].
    destruct Hlf as [[-> Hlf] | [[-> Hlf] | [-> Hlf]]];
      destruct Hlg as [[-> Hlg] | [[-> Hlg] | [-> Hlg]]];
      try reflexivity; exfalso; lia. }
  split; [|exact Hrel].
  intros Hvf Hvg. apply Hrel; now apply guard_implies_related.
Qed.

Lemma numeric_symbologies_exclusive_witness :
  validateBarcode (js "12345678") (js "EAN8") = true /\
  validateBarcode (js "12345678") (js "EAN13") = false /\
  (validateBarcode (js "12345678") (js "EAN8") = true ->
   validateBarcode (js "12345678") (js "EAN8") = true ->
   js "EAN8" = js "EAN8").
Proof.
  split; [reflexivity|]. split; [reflexivity|].
  apply (@numeric_symbologies_exclusive (js "12345678") (js "EAN8")
           (js "EAN8")); unfold numeric; simpl; auto.
Defined.

Lemma digit_is_code39_char (c : code_unit) : is_digit c -> is_code39_char c.
Proof. unfold is_digit, is_code39_char. tauto. Qed.

(** What a numeric symbology admits Code39 admits, and what Code39 admits
    Code128 admits, in either document: a code stays valid when the
    symbology is changed in that direction. *)
Theorem symbologies_nested (s f : jsstring) (Hf : In f numeric) :
  (validateBarcode s f = true -> validateBarcode s (js "CODE39") = true) /\
  (validateBarcode s (js "CODE39") = true ->
   validateBarcode s (js "CODE128") = true) /\
  (validateBarcode_related s f = true ->
   validateBarcode_related s (js "CODE39") = true) /\
  (validateBarcode_related s (js "CODE39") = true ->
   validateBarcode_related s (js "CODE128") = true).
Proof.
  assert (Hrel : forall t, t <> [] -> validateBarcode_related t f = true ->
                 validateBarcode_related t (js "CODE39") = true).
  { intros t Ht Hv. destruct (@related_numeric_digits t f Hf Hv) as [Hd _].
    rewrite related_code39. apply test_code39. split; [exact Ht|].
    eapply Forall_impl; [|exact Hd]. apply digit_is_code39_char. }
  assert (Hne : validateBarcode_related s f = true -> s <> []).
  { intros Hv ->. destruct (@related_numeric_digits [] f Hf Hv) as [_ Hl].
    simpl in Hl. intuition discriminate. }
  repeat split.
  - intros Hv. apply guard_implies_related in Hv as [Hs Hv].
    apply related_implies_guard; auto.
  - intros Hv. apply guard_implies_related in Hv as [Hs _].
    now apply related_implies_guard.
  - intros Hv. apply Hrel; auto.
Qed.

Lemma symbologies_nested_witness :
  validateBarcode (js "12345678") (js "EAN8") = true /\
  validateBarcode (js "12345678") (js "CODE39") = true /\
  validateBarcode (js "12345678") (js "CODE128") = true.
Proof.
  destruct (@symbologies_nested (js "12345678") (js "EAN8"))
    as (H1 & H2 & _); [unfold numeric; simpl; auto|].
  assert (H0 : validateBarcode (js "12345678") (js "EAN8") = true)
    by reflexivity.
  split; [exact H0|]. split; [exact (H1 H0) | exact (H2 (H1 H0))].
Defined.

(** ** The two documents on a batch *)

Lemma batch_loop_same_validator
  (v1 v2 : jsstring -> jsstring -> bool) (env : Env)
  (bs : BarcodeSettings.t) (es : ExportSettings.t)
  (items : list BatchItem.t) :
  Forall (fun item => v1 (BatchItem.barcode item) (BarcodeSettings.format bs)
                      = v2 (BatchItem.barcode item) (BarcodeSettings.format bs))
         items ->
  batch_loop v1 env bs es items = batch_loop v2 env bs es items.
Proof.
  induction 1 as [|item items Hv _ IH]; simpl; [reflexivity|].
  unfold batch_row. now rewrite Hv, IH.
Qed.

(** On a batch without an empty code the batch runs of the two documents
    are the same run: same events, same final state. *)
Theorem batch_runs_agree_without_empty_code (env : Env) (st : Component)
  (Hcodes : Forall (fun item => BatchItem.barcode item <> []) (batchData st)) :
  generateBatch env st = generateBatch_related env st.
Proof.
  unfold generateBatch, generateBatch_related, generateBatch_with.
  destruct (batchData st) as [|item items] eqn:Hdata; [reflexivity|].
  destruct (negb (context2d env)); [reflexivity|].
  rewrite (@batch_loop_same_validator validateBarcode validateBarcode_related);
    [reflexivity|].
  eapply Forall_impl; [|exact Hcodes].
  intros it Hne. rewrite validateBarcode_guard.
  destruct (BatchItem.barcode it) eqn:E; [congruence | reflexivity].
Qed.

Lemma batch_runs_agree_without_empty_code_witness :
  generateBatch working_env ean13_batch_state
  = generateBatch_related working_env ean13_batch_state.
Proof.
  apply batch_runs_agree_without_empty_code.
  repeat constructor; discriminate.
Defined.

(** ** What a batch run accounts for *)







(** With svg as the output format the events of the loop do not depend on
    the raster resolution: same invocations of the renderer, same files. *)
Theorem svg_batch_ignores_resolution
  (validate : jsstring -> jsstring -> bool) (env : Env)
  (bs : BarcodeSettings.t) (es : ExportSettings.t) (r : float)
  (items : list BatchItem.t)
  (Hsvg : ExportSettings.format es = svg) :
  batch_loop validate env bs (with_resolution r es) items
  = batch_loop validate env bs es items.
Proof.
  induction items as [|item items IH]; simpl; [reflexivity|].
  rewrite IH. f_equal. unfold batch_row, export_row, filename.
  cbn [with_resolution ExportSettings.format ExportSettings.prefix
       ExportSettings.suffix].
  now rewrite Hsvg.
Qed.

Lemma svg_batch_ignores_resolution_witness :
  batch_loop validateBarcode working_env initial_barcode_settings
    (with_resolution 300 it_export_settings) (batchData it_state)
  = batch_loop validateBarcode working_env initial_barcode_settings
      it_export_settings (batchData it_state).
Proof. apply svg_batch_ignores_resolution. reflexivity. Defined.

(** ** Single mode *)


Lemma text_or_nonempty (t : option jsstring) (fallback : jsstring) :
  fallback <> [] -> text_or t fallback <> [].
Proof.
  intros Hf. unfold text_or. destruct t as [[|c s]|]; simpl; auto.
  discriminate.
Qed.

Lemma falsy_false (s : jsstring) : falsy s = false -> s <> [].
Proof. destruct s; simpl; [discriminate | intros _; discriminate]. Qed.

(** Whenever the preview effect of either document or the [downloadSingle]
    of the first document invokes the renderer, the label it passes is a
    non-empty string: the configured text if there is one, else the input
    text, which the guards have found non-empty.  (The [downloadSingle] of
    the related document spreads [barcodeSettings] instead and passes the
    configured text as it is.) *)
Theorem single_mode_label_never_empty (env : Env) (st : Component) :
  let labelled := Forall (fun l => exists s : jsstring, l = Some s /\ s <> []) in
  labelled (render_labels (downloadSingle env st)) /\
  labelled (render_labels (snd (previewEffect env st))) /\
  labelled (render_labels (snd (previewEffect_related env st))).
Proof.
  cbv zeta.
  assert (Hlabel : falsy (inputText st) = false ->
            exists s : jsstring,
              Some (text_or (BarcodeSettings.text (barcodeSettings st))
                            (inputText st)) = Some s /\ s <> []).
  { intros Hf. eexists. split; [reflexivity|].
    apply text_or_nonempty. now apply falsy_false. }
  repeat apply conj.
  - unfold downloadSingle.
    destruct (falsy (inputText st)) eqn:Hf; [constructor|].
    destruct (negb (falsy (validationError st))); [constructor|].
    destruct (negb (mounted env canvasRef)); [constructor|].
    destruct (negb (context2d env)); [constructor|].
    cbn [orb render_labels].
    constructor; [now apply Hlabel|].
    match goal with |- context [renders ?e ?t ?c ?o] =>
      destruct (renders e t c o) end; cbn [negb]; [|constructor].
    destruct (ExportSettings.format (exportSettings st)); try constructor.
    destruct (mounted env previewRef); constructor.
  - unfold previewEffect.
    destruct (falsy (inputText st)) eqn:Hf; [constructor|].
    destruct (negb (mounted env previewRef)); [constructor|].
    cbn [orb].
    destruct (negb (validateBarcode (inputText st)
                     (BarcodeSettings.format (barcodeSettings st))));
      [constructor|].
    match goal with |- context [renders ?e ?t ?c ?o] =>
      destruct (renders e t c o) end; cbn [snd render_labels];
      (constructor; [now apply Hlabel | constructor]).
  - unfold previewEffect_related.
    destruct (falsy (inputText st)) eqn:Hf; [constructor|].
    destruct (negb (mounted env previewRef)); [constructor|].
    cbn [orb].
    destruct (negb (validateBarcode_related (inputText st)
                     (BarcodeSettings.format (barcodeSettings st))));
      [constructor|].
    match goal with |- context [renders ?e ?t ?c ?o] =>
      destruct (renders e t c o) end; cbn [snd render_labels];
      (constructor; [now apply Hlabel | constructor]).
Qed.

Lemma app_nonempty_l {A} (a b : list A) : a <> [] -> a ++ b <> [].
Proof. destruct a; [congruence | discriminate]. Qed.

(** The preview effect of the first document invokes the renderer only on
    a text that passes validation, and leaves no validation error exactly
    when the text is empty, the preview element is not mounted, or the
    text is valid and the renderer returns. *)
Theorem preview_effect_outcome (env : Env) (st : Component) :
  let text := inputText st in
  let bs := barcodeSettings st in
  Forall (fun content => content = text
            /\ validateBarcode text (BarcodeSettings.format bs) = true)
         (render_attempts (snd (previewEffect env st))) /\
  (validationError (fst (previewEffect env st)) = [] <->
   falsy text = true \/ mounted env previewRef = false \/
   (validateBarcode text (BarcodeSettings.format bs) = true /\
    renders env previewRef text
      (plain_options bs (Some (text_or (BarcodeSettings.text bs) text)))
    = true)).
Proof.
  cbv zeta. unfold previewEffect.
  destruct (falsy (inputText st)) eqn:Hf; cbn [orb].
  { split; [constructor | simpl; tauto]. }
  destruct (mounted env previewRef) eqn:Hm; cbn [negb].
  2:{ split; [constructor | simpl; tauto]. }
  destruct (validateBarcode (inputText st)
              (BarcodeSettings.format (barcodeSettings st))) eqn:Hv;
    cbn [negb].
  2:{ split; [constructor|]. cbn [fst validationError with_validationError].
      split.
      - intros H. exfalso. revert H. apply app_nonempty_l. discriminate.
      - intros [H | [H | [H _]]]; discriminate H. }
  match goal with |- context [renders ?e ?t ?c ?o] =>
    destruct (renders e t c o) eqn:Hr end;
    cbn [fst snd render_attempts validationError with_validationError].
  - split; [repeat constructor | tauto].
  - split; [repeat constructor|]. split; [discriminate|].
    intros [H | [H | [_ H]]]; discriminate H.
Qed.

(** ** Edits while a validation error is shown *)

Lemma jsstring_eqb_neq (a b : jsstring) : a <> b -> jsstring_eqb a b = false.
Proof.
  intros Hne. destruct (jsstring_eqb a b) eqn:E; [|reflexivity].
  apply jsstring_eqb_eq in E. contradiction.
Qed.

Lemma falsy_nonempty (s : jsstring) : s <> [] -> falsy s = false.
Proof. destruct s; [congruence | reflexivity]. Qed.

Lemma preview_out_of_tree_under_error (st : Component) :
  validationError st <> [] -> preview_in_tree st = false.
Proof.
  intros Herr. unfold preview_in_tree.
  rewrite (falsy_nonempty Herr). apply andb_false_r.
Qed.

(** First document: while a validation error is shown the preview element
    is out of the tree, so the effect that follows an edit to a new,
    non-empty text clears the error without validating the text or
    calling the renderer; [downloadSingle] then hands that text to the
    renderer, valid or not. *)
Theorem edit_under_error_clears_it (env : Env) (t : jsstring) (st : Component)
  (Herr : validationError st <> []) (Ht : t <> []) (Hnew : t <> inputText st)
  (Hctx : context2d env = true) :
  let st' := with_validationError [] (with_inputText t st) in
  type_text previewEffect env t st = (st', [ SetValidationError [] ]) /\
  render_attempts (downloadSingle (committed env st') st') = [ t ].
Proof.
  cbv zeta. split.
  - unfold type_text. rewrite (jsstring_eqb_neq Hnew).
    unfold previewEffect.
    cbn [committed mounted inputText with_inputText].
    rewrite preview_out_of_tree_under_error by exact Herr.
    now rewrite orb_true_r.
  - unfold downloadSingle.
    cbn [committed mounted context2d inputText validationError
         with_validationError with_inputText falsy].
    rewrite (falsy_nonempty Ht), Hctx. cbn [negb orb render_attempts].
    repeat match goal with
    | |- context [if ?c then _ else _] => destruct c
    | |- context [match ExportSettings.format ?e with _ => _ end] =>
        destruct (ExportSettings.format e)
    end; reflexivity.
Qed.

(** "a" is flagged as invalid Code39; the edit to "ab", as invalid, clears
    the flag and the download renders "ab". *)
Lemma edit_under_error_clears_it_witness :
  validateBarcode (js "ab") (js "CODE39") = false /\
  validationError
    (fst (type_text previewEffect working_env (js "ab") flagged_state)) = [] /\
  render_attempts
    (downloadSingle
       (committed working_env
          (with_validationError [] (with_inputText (js "ab") flagged_state)))
       (with_validationError [] (with_inputText (js "ab") flagged_state)))
  = [ js "ab" ].
Proof.
  destruct (@edit_under_error_clears_it working_env (js "ab") flagged_state)
    as [Htype Hdown]; try discriminate; try reflexivity.
  split; [reflexivity|]. split; [now rewrite Htype | exact Hdown].
Defined.

(** Related document: once a validation error is shown the preview
    element is out of the tree and the effect returns at its first line,
    so no sequence of edits clears the error or reaches the renderer
    again. *)
Theorem related_error_sticks (env : Env) (ts : list jsstring) (st : Component)
  (Herr : validationError st <> []) :
  validationError (fst (type_texts previewEffect_related env ts st))
  = validationError st /\
  snd (type_texts previewEffect_related env ts st) = [].
Proof.
  revert st Herr. induction ts as [|t ts IH]; intros st Herr;
    [split; reflexivity|].
  cbn [type_texts].
  assert (Hstep : type_text previewEffect_related env t st
                  = (if jsstring_eqb t (inputText st) then st
                     else with_inputText t st, [])).
  { unfold type_text. destruct (jsstring_eqb t (inputText st));
      [reflexivity|].
    unfold previewEffect_related. cbn [committed mounted].
    rewrite preview_out_of_tree_under_error by exact Herr.
    now rewrite orb_true_r. }
  rewrite Hstep.
  set (st1 := if jsstring_eqb t (inputText st) then st
              else with_inputText t st).
  assert (Herr1 : validationError st1 = validationError st)
    by (unfold st1; destruct (jsstring_eqb t (inputText st)); reflexivity).
  destruct (IH st1) as [IHe IHt]; [now rewrite Herr1|].
  destruct (type_texts previewEffect_related env ts st1) as [st2 tr2].
  cbn [fst snd] in *. split; [congruence | now rewrite IHt].
Qed.

(** Three edits to valid Code39 texts after "a" was flagged: the error
    stays. *)
Lemma related_error_sticks_witness :
  validationError
    (fst (type_texts previewEffect_related working_env
            [ js "ABC"; js "A1"; js "ABC-123" ] flagged_state))
  = js "Invalid format for CODE39" /\
  snd (type_texts previewEffect_related working_env
         [ js "ABC"; js "A1"; js "ABC-123" ] flagged_state) = [].
Proof.
  apply (@related_error_sticks working_env
           [ js "ABC"; js "A1"; js "ABC-123" ] flagged_state).
  discriminate.
Defined.

(** ** Line-oriented upload *)

Lemma trim_start_head (s : jsstring) (c : code_unit) :
  hd_error (trim_start s) = Some c -> is_space c = false.
Proof.
  induction s as [|x s IH]; simpl; [discriminate|].
  destruct (is_space x) eqn:Hx; [exact IH|].
  simpl. intros E. inversion E; subst. exact Hx.
Qed.

Lemma trim_start_snoc (a : jsstring) (c : code_unit) :
  is_space c = false -> trim_start (a ++ [c]) = trim_start a ++ [c].
Proof.
  intros Hc. induction a as [|x a IH]; simpl; [now rewrite Hc|].
  destruct (is_space x); [exact IH | reflexivity].
Qed.

Lemma trim_start_snoc_space (a : jsstring) (c : code_unit) :
  is_space c = true ->
  trim_start (a ++ [c]) = match trim_start a with
                          | [] => []
                          | _ :: _ => trim_start a ++ [c]
                          end.
Proof.
  intros Hc. induction a as [|x a IH]; simpl; [now rewrite Hc|].
  destruct (is_space x); [exact IH | reflexivity].
Qed.

Lemma trim_end_cons (c : code_unit) (s : jsstring) :
  is_space c = false -> trim_end (c :: s) = c :: trim_end s.
Proof.
  intros Hc. unfold trim_end. simpl rev.
  rewrite trim_start_snoc by exact Hc. now rewrite rev_app_distr.
Qed.

Lemma trim_end_last (s : jsstring) (c : code_unit) :
  hd_error (rev (trim_end s)) = Some c -> is_space c = false.
Proof. unfold trim_end. rewrite rev_involutive. apply trim_start_head. Qed.

Lemma trim_start_fixed (s : jsstring) :
  (forall c, hd_error s = Some c -> is_space c = false) -> trim_start s = s.
Proof.
  destruct s as [|x s]; [reflexivity|]. intros H. simpl.
  now rewrite (H x eq_refl).
Qed.

Lemma trim_head (s : jsstring) (c : code_unit) :
  hd_error (trim s) = Some c -> is_space c = false.
Proof.
  unfold trim. destruct (trim_start s) as [|x r] eqn:E; [discriminate|].
  assert (Hx : is_space x = false)
    by (apply (@trim_start_head s); now rewrite E).
  rewrite trim_end_cons by exact Hx. simpl. intros H; inversion H; now subst.
Qed.

Lemma trim_last (s : jsstring) (c : code_unit) :
  hd_error (rev (trim s)) = Some c -> is_space c = false.
Proof. unfold trim. apply trim_end_last. Qed.

Lemma trim_idempotent (s : jsstring) : trim (trim s) = trim s.
Proof.
  assert (Hs : trim_start (trim s) = trim s)
    by (apply trim_start_fixed; apply trim_head).
  unfold trim at 1. rewrite Hs. unfold trim_end.
  rewrite trim_start_fixed; [apply rev_involutive|].
  apply trim_last.
Qed.

Lemma txt_batch_codes_nonempty (text : jsstring) :
  Forall (fun item => BatchItem.barcode item <> []) (txt_batch text).
Proof.
  unfold txt_batch. apply Forall_forall. intros item Hin.
  apply in_map_iff in Hin as (line & <- & Hline).
  apply filter_In in Hline as [_ Hne]. cbn [BatchItem.barcode].
  apply falsy_false. now destruct (falsy (trim line)).
Qed.

(** Every row of a line-oriented upload has a code that is not empty and
    has no white space at either end, and its label is its code; there is
    one row per line that is not blank, in the order of the lines. *)
Theorem txt_rows_trimmed (text : jsstring) :
  Forall (fun item =>
            BatchItem.text item = Some (BatchItem.barcode item) /\
            BatchItem.barcode item <> [] /\
            trim (BatchItem.barcode item) = BatchItem.barcode item /\
            (forall c, hd_error (BatchItem.barcode item) = Some c ->
                       is_space c = false) /\
            (forall c, hd_error (rev (BatchItem.barcode item)) = Some c ->
                       is_space c = false))
         (txt_batch text) /\
  map BatchItem.barcode (txt_batch text)
  = filter (fun line => negb (falsy line)) (map trim (split_on 10%N text)).
Proof.
  unfold txt_batch. split.
  - apply Forall_forall. intros item Hin.
    apply in_map_iff in Hin as (line & <- & Hline).
    apply filter_In in Hline as [_ Hne]. cbn [BatchItem.barcode BatchItem.text].
    split; [reflexivity|]. split.
    + apply falsy_false. now destruct (falsy (trim line)).
    + split; [apply trim_idempotent|]. split; [apply trim_head | apply trim_last].
  - induction (split_on 10%N text) as [|line lines IH]; [reflexivity|].
    cbn [filter map]. destruct (falsy (trim line)); cbn [negb map];
      now rewrite IH.
Qed.

Lemma txt_rows_pass_code128 (items : list BatchItem.t) :
  Forall (fun item => BatchItem.barcode item <> []) items ->
  Forall (fun item =>
            validateBarcode (BatchItem.barcode item) (js "CODE128") = true /\
            validateBarcode_related (BatchItem.barcode item) (js "CODE128")
            = true) items.
Proof.
  intros H. eapply Forall_impl; [|exact H]. intros item Hne.
  rewrite validateBarcode_guard, related_code128.
  now rewrite (falsy_nonempty Hne).
Qed.

Lemma batch_loop_all_valid
  (validate : jsstring -> jsstring -> bool) (env : Env)
  (bs : BarcodeSettings.t) (es : ExportSettings.t)
  (items : list BatchItem.t) :
  Forall (fun item => validate (BatchItem.barcode item)
                               (BarcodeSettings.format bs) = true) items ->
  warnings (batch_loop validate env bs es items) = [].
Proof.
  intros H. rewrite batch_loop_warnings. unfold invalid_rows.
  induction H as [|item items Hv _ IH]; [reflexivity|].
  cbn [filter]. now rewrite Hv.
Qed.

(** With Code128 selected, a batch uploaded as a line-oriented file is
    generated without a single warning, in either document: every row the
    upload produces passes validation. *)
Theorem txt_upload_code128_never_warns (env : Env) (st : Component)
  (text : jsstring)
  (Hformat : BarcodeSettings.format (barcodeSettings st) = js "CODE128") :
  let uploaded := with_batchData (txt_batch text) st in
  warnings (snd (generateBatch env uploaded)) = [] /\
  warnings (snd (generateBatch_related env uploaded)) = [] /\
  (context2d env = true ->
   render_attempts (snd (generateBatch env uploaded))
   = map BatchItem.barcode (txt_batch text)).
Proof.
  cbv zeta.
  pose proof (txt_batch_codes_nonempty text) as Hne.
  pose proof (txt_rows_pass_code128 Hne) as Hok.
  assert (Hw : forall v,
            Forall (fun item => v (BatchItem.barcode item) (js "CODE128")
                                = true) (txt_batch text) ->
            warnings (snd (generateBatch_with v env
                             (with_batchData (txt_batch text) st))) = []).
  { intros v Hv. unfold generateBatch_with.
    cbn [batchData with_batchData barcodeSettings exportSettings].
    destruct (txt_batch text) as [|item items] eqn:E; [reflexivity|].
    destruct (negb (context2d env)); [reflexivity|].
    cbn [snd]. rewrite !warnings_app, batch_loop_all_valid;
      [reflexivity | now rewrite Hformat]. }
  split; [|split].
  - apply Hw. eapply Forall_impl; [|exact Hok]. intros item [H _]; exact H.
  - apply Hw. eapply Forall_impl; [|exact Hok]. intros item [_ H]; exact H.
  - intros Hctx. unfold generateBatch, generateBatch_with. rewrite Hctx.
    cbn [batchData with_batchData barcodeSettings exportSettings].
    destruct (txt_batch text) as [|item items] eqn:E; [reflexivity|].
    cbn [negb snd]. rewrite !render_attempts_app, batch_loop_attempts.
    cbn [render_attempts app size_batch_canvas]. rewrite app_nil_r.
    f_equal. unfold valid_rows. rewrite Hformat.
    apply forallb_filter_id. apply forallb_forall. intros it Hin.
    rewrite Forall_forall in Hok. now apply Hok.
Qed.

Lemma txt_upload_code128_never_warns_witness :
  let text := js "123456789012" ++ js newline ++ js "  " ++ js newline
              ++ js " ABCD1234 " in
  let uploaded := with_batchData (txt_batch text) initial_state in
  warnings (snd (generateBatch working_env uploaded)) = [] /\
  render_attempts (snd (generateBatch working_env uploaded))
  = [ js "123456789012"; js "ABCD1234" ].
Proof.
  cbv zeta.
  destruct (@txt_upload_code128_never_warns working_env initial_state
              (js "123456789012" ++ js newline ++ js "  " ++ js newline
               ++ js " ABCD1234 ") eq_refl) as (Hw & _ & Hr).
  split; [exact Hw | exact (Hr eq_refl)].
Defined.

Lemma split_on_not_nil (sep : code_unit) (s : jsstring) :
  split_on sep s <> [].
Proof.
  induction s as [|c s IH]; simpl; [discriminate|].
  destruct (N.eqb c sep); [discriminate|].
  destruct (split_on sep s); [congruence | discriminate].
Qed.

Lemma split_on_no_sep (sep : code_unit) (s : jsstring) :
  ~ In sep s -> split_on sep s = [s].
Proof.
  induction s as [|c s IH]; simpl; [reflexivity|]. intros Hnot.
  destruct (N.eqb c sep) eqn:E; [apply N.eqb_eq in E; tauto|].
  rewrite IH by tauto. reflexivity.
Qed.

Lemma split_on_app_sep (sep : code_unit) (a b : jsstring) :
  ~ In sep a -> split_on sep (a ++ sep :: b) = a :: split_on sep b.
Proof.
  induction a as [|c a IH]; simpl; intros Hnot.
  - now rewrite N.eqb_refl.
  - destruct (N.eqb c sep) eqn:E; [apply N.eqb_eq in E; tauto|].
    rewrite IH by tauto. reflexivity.
Qed.

Lemma trim_snoc_space (s : jsstring) (c : code_unit) :
  is_space c = true -> trim (s ++ [c]) = trim s.
Proof.
  intros Hc. unfold trim. rewrite trim_start_snoc_space by exact Hc.
  destruct (trim_start s) as [|x r]; [reflexivity|].
  unfold trim_end. rewrite rev_app_distr. simpl rev at 2.
  cbn [app trim_start]. now rewrite Hc.
Qed.

Lemma trim_app_spaces (s pre : jsstring) :
  Forall (fun c => is_space c = true) pre -> trim (s ++ pre) = trim s.
Proof.
  induction pre as [|c pre IH] using rev_ind; intros H.
  - now rewrite app_nil_r.
  - apply Forall_app in H as [Hpre Hc]. inversion Hc; subst.
    rewrite app_assoc, trim_snoc_space by assumption. now apply IH.
Qed.

Lemma txt_batch_rows (text : jsstring) :
  txt_batch text = rows_of_lines (split_on 10%N text).
Proof. reflexivity. Qed.

Lemma rows_of_lines_cons_spaces (line pre : jsstring)
  (lines : list jsstring) :
  Forall (fun c => is_space c = true) pre ->
  rows_of_lines ((line ++ pre) :: lines) = rows_of_lines (line :: lines).
Proof.
  intros Hpre. unfold rows_of_lines. cbn [filter].
  rewrite trim_app_spaces by exact Hpre.
  destruct (negb (falsy (trim line))); cbn [map]; [|reflexivity].
  now rewrite trim_app_spaces by exact Hpre.
Qed.

Lemma rows_of_lines_tail (line : jsstring) (l1 l2 : list jsstring) :
  rows_of_lines l1 = rows_of_lines l2 ->
  rows_of_lines (line :: l1) = rows_of_lines (line :: l2).
Proof.
  unfold rows_of_lines. intros H. cbn [filter].
  destruct (negb (falsy (trim line))); cbn [map]; now rewrite H.
Qed.

Lemma txt_batch_join (pre : jsstring) (lines : list jsstring) :
  Forall (fun c => is_space c = true) pre -> ~ In 10%N pre ->
  Forall (fun line => ~ In 10%N line) lines ->
  txt_batch (join_lines (pre ++ [10%N]) lines) = rows_of_lines lines.
Proof.
  intros Hpre Hnl Hlines. rewrite txt_batch_rows.
  induction Hlines as [|line rest Hline Hrest IH]; [reflexivity|].
  destruct rest as [|line2 rest].
  - cbn [join_lines]. now rewrite split_on_no_sep.
  - change (join_lines (pre ++ [10%N]) (line :: line2 :: rest))
      with (line ++ (pre ++ [10%N])
            ++ join_lines (pre ++ [10%N]) (line2 :: rest)).
    rewrite <- app_assoc, app_assoc. cbn [app].
    rewrite split_on_app_sep.
    + rewrite rows_of_lines_cons_spaces by exact Hpre.
      now apply rows_of_lines_tail.
    + intros Hin. apply in_app_or in Hin as [Hin | Hin]; tauto.
Qed.

(** A file whose lines are joined by LF, or by CR LF, gives one row per
    line that is not blank: its trimmed text as code and as label, in the
    order of the lines. *)
Theorem txt_upload_one_row_per_line (lines : list jsstring)
  (Hlines : Forall (fun line => ~ In 10%N line) lines) :
  txt_batch (join_lines [10%N] lines) = rows_of_lines lines /\
  txt_batch (join_lines [13%N; 10%N] lines) = rows_of_lines lines.
Proof.
  split.
  - apply (@txt_batch_join [] lines); [constructor | simpl; tauto | exact Hlines].
  - apply (@txt_batch_join [13%N] lines); [repeat constructor | | exact Hlines].
    simpl. intuition discriminate.
Qed.

Lemma txt_upload_one_row_per_line_witness :
  txt_batch (join_lines [13%N; 10%N]
               [ js "123456789012"; js ""; js " ABCD1234" ])
  = [ row "123456789012" "123456789012"; row "ABCD1234" "ABCD1234" ].
Proof.
  destruct (@txt_upload_one_row_per_line
              [ js "123456789012"; js ""; js " ABCD1234" ]) as [_ H].
  - repeat constructor; simpl; intuition discriminate.
  - rewrite H. reflexivity.
Defined.

(** ** Rows of a tabular upload *)

Lemma truthy_some (v : option jsstring) :
  truthy v = true -> exists s, v = Some s /\ s <> [].
Proof.
  destruct v as [[|c s]|]; simpl; try discriminate.
  intros _. eexists. split; [reflexivity | discriminate].
Qed.

(** A row object with at least one property gives a row whose code and
    label are both defined, and whenever the code is not empty the label
    is not empty either. *)
Theorem csv_row_label_follows_code (row : jsobject) (Hrow : row <> []) :
  (exists code label : jsstring,
     ParsedRow.barcode (parse_row row) = Some code /\
     ParsedRow.text (parse_row row) = Some label) /\
  (truthy (ParsedRow.barcode (parse_row row)) = true ->
   truthy (ParsedRow.text (parse_row row)) = true).
Proof.
  destruct row as [|[k v] row]; [congruence|].
  unfold parse_row, or_else, first_value.
  cbn [ParsedRow.barcode ParsedRow.text map nth_error snd].
  set (r := (k, v) :: row).
  destruct (get r (js "barcode")) as [[|c1 s1]|];
    destruct (get r (js "Barcode")) as [[|c2 s2]|];
    destruct (get r (js "text")) as [[|c3 s3]|];
    destruct (get r (js "Text")) as [[|c4 s4]|];
    cbn [truthy falsy negb];
    (split; [eauto | try reflexivity; try (destruct v; simpl; auto)]).
Qed.

Lemma csv_row_label_follows_code_witness :
  (exists code label : jsstring,
     ParsedRow.barcode (parse_row capitals_row) = Some code /\
     ParsedRow.text (parse_row capitals_row) = Some label) /\
  truthy (ParsedRow.text (parse_row capitals_row)) = true.
Proof.
  destruct (@csv_row_label_follows_code capitals_row) as [Hdef Hlabel];
    [discriminate|].
  split; [exact Hdef | apply Hlabel; reflexivity].
Defined.

(** ** Runs and what happens around them *)

Section PageRuns.

Variable validate : jsstring -> jsstring -> bool.
Variable env : Env.

Lemma resume_same_runs (k : nat) (pg1 pg2 : Page) :
  runs pg1 = runs pg2 -> log pg1 = log pg2 ->
  runs (resume validate env k pg1) = runs (resume validate env k pg2) /\
  log (resume validate env k pg1) = log (resume validate env k pg2).
Proof.
  intros Hr Hl. unfold resume. rewrite Hr.
  destruct (nth_error (runs pg2) k) as [r|]; [|now split].
  destruct (pending r); cbn [runs log]; rewrite ?Hr, ?Hl; now split.
Qed.

Lemma fold_same_runs (script : list action) :
  forallb (fun a => negb (is_click a)) script = true ->
  forall pg1 pg2 : Page,
    runs pg1 = runs pg2 -> log pg1 = log pg2 ->
    runs (fold_left (step validate env) script pg1)
    = runs (fold_left (step validate env) (filter is_resume script) pg2) /\
    log (fold_left (step validate env) script pg1)
    = log (fold_left (step validate env) (filter is_resume script) pg2).
Proof.
  induction script as [|a script IH]; intros Hnc pg1 pg2 Hr Hl;
    [now split|].
  cbn [forallb] in Hnc. apply andb_true_iff in Hnc as [Ha Hnc].
  destruct a as [data | bs es | | k]; cbn [is_click negb] in Ha;
    try discriminate Ha; cbn [filter is_resume fold_left].
  - apply IH; assumption.
  - apply IH; assumption.
  - destruct (resume_same_runs k pg1 pg2 Hr Hl) as [Hr' Hl'].
    apply IH; assumption.
Qed.

Lemma step_nothing_in_flight (pg : Page) (a : action) :
  context2d env = false -> runs pg = [] ->
  Forall (fun e => e = SetIsGenerating true) (log pg) ->
  runs (step validate env pg a) = [] /\
  Forall (fun e => e = SetIsGenerating true) (log (step validate env pg a)) /\
  (isGenerating (component pg) = true ->
   isGenerating (component (step validate env pg a)) = true).
Proof.
  intros Hctx Hruns Hlog. destruct a as [data | bs es | | k]; cbn [step].
  - now repeat split.
  - now repeat split.
  - destruct (button_disabled (component pg)); [now repeat split|].
    unfold start_batch. destruct (batchData (component pg));
      [now repeat split|].
    rewrite Hctx. cbn [negb runs log component isGenerating
                       with_isGenerating].
    repeat split; [exact Hruns|].
    apply Forall_app. split; [exact Hlog | repeat constructor].
  - unfold resume. rewrite Hruns. destruct k; now repeat split.
Qed.

Lemma fold_nothing_in_flight (script : list action) :
  context2d env = false ->
  forall pg : Page,
    runs pg = [] ->
    Forall (fun e => e = SetIsGenerating true) (log pg) ->
    let pg' := fold_left (step validate env) script pg in
    runs pg' = [] /\
    Forall (fun e => e = SetIsGenerating true) (log pg') /\
    (isGenerating (component pg) = true ->
     isGenerating (component pg') = true).
Proof.
  intros Hctx. induction script as [|a script IH]; intros pg Hruns Hlog;
    cbv zeta; [now repeat split|].
  cbn [fold_left].
  destruct (step_nothing_in_flight pg a Hctx Hruns Hlog) as (Hr & Hl & Hf).
  destruct (IH _ Hr Hl) as (Hr' & Hl' & Hf').
  repeat split; auto.
Qed.

End PageRuns.

Lemma only_flag_events (tr : list event) :
  Forall (fun e => e = SetIsGenerating true) tr ->
  render_attempts tr = [] /\ export_filenames tr = [].
Proof.
  induction 1 as [|e tr He _ [IHr IHe]]; [now split|].
  subst e. now split.
Qed.

(** A run visits the rows and uses the settings it was started with: from
    any page, a sequence of uploads, settings changes and resumptions
    leaves the same runs in flight and the same events as the resumptions
    alone. *)
Theorem run_unaffected_by_uploads_and_settings
  (validate : jsstring -> jsstring -> bool) (env : Env) (pg : Page)
  (script : list action)
  (Hnoclick : forallb (fun a => negb (is_click a)) script = true) :
  runs (fold_left (step validate env) script pg)
  = runs (fold_left (step validate env) (filter is_resume script) pg) /\
  log (fold_left (step validate env) script pg)
  = log (fold_left (step validate env) (filter is_resume script) pg).
Proof. now apply fold_same_runs. Qed.

(** A run of three rows is started; a new file and new settings arrive
    between its resumptions; the events are those of the three rows. *)
Lemma run_unaffected_by_uploads_and_settings_witness :
  let started := play validateBarcode working_env
                   [ Upload (batchData ean13_batch_state);
                     ChangeSettings (barcodeSettings ean13_batch_state)
                       initial_export_settings;
                     ClickGenerate ] in
  render_attempts
    (log (fold_left (step validateBarcode working_env)
            [ Resume 0; Upload (batchData it_state);
              ChangeSettings initial_barcode_settings it_export_settings;
              Resume 0; Resume 0; Resume 0 ] started))
  = [ js "1234567890123"; js "9876543210987" ].
Proof.
  cbv zeta.
  destruct (@run_unaffected_by_uploads_and_settings validateBarcode
              working_env
              (play validateBarcode working_env
                 [ Upload (batchData ean13_batch_state);
                   ChangeSettings (barcodeSettings ean13_batch_state)
                     initial_export_settings;
                   ClickGenerate ])
              [ Resume 0; Upload (batchData it_state);
                ChangeSettings initial_barcode_settings it_export_settings;
                Resume 0; Resume 0; Resume 0 ] eq_refl) as [_ Hlog].
  rewrite Hlog. reflexivity.
Defined.

(** Where canvases give no 2D context no batch run ever gets in flight,
    the renderer and the exporter are never called from batch mode, and
    once [isGenerating] is true it stays true whatever follows: the batch
    button remains disabled. *)
Theorem no_context_no_batch
  (validate : jsstring -> jsstring -> bool) (env : Env)
  (script more : list action) (Hctx : context2d env = false) :
  let pg := play validate env script in
  let pg' := play validate env (script ++ more) in
  runs pg = [] /\
  render_attempts (log pg) = [] /\
  export_filenames (log pg) = [] /\
  (isGenerating (component pg) = true ->
   isGenerating (component pg') = true /\
   button_disabled (component pg') = true).
Proof.
  cbv zeta.
  destruct (@fold_nothing_in_flight validate env script Hctx
              (initial_page) eq_refl (Forall_nil _)) as (Hr & Hl & _).
  fold (play validate env script) in Hr, Hl.
  destruct (only_flag_events Hl) as [Hra Hex].
  repeat split; auto.
  - unfold play. rewrite fold_left_app.
    fold (play validate env script).
    now apply (@fold_nothing_in_flight validate env more Hctx
                 (play validate env script) Hr Hl).
  - unfold button_disabled.
    assert (Hflag : isGenerating
                      (component (play validate env (script ++ more))) = true).
    { unfold play. rewrite fold_left_app.
      fold (play validate env script).
      now apply (@fold_nothing_in_flight validate env more Hctx
                   (play validate env script) Hr Hl). }
    rewrite Hflag. apply orb_true_r.
Qed.

Lemma no_context_no_batch_witness :
  let script := [ Upload (batchData ean13_batch_state); ClickGenerate ] in
  let more := [ Resume 0; Upload (batchData it_state); ClickGenerate ] in
  render_attempts (log (play validateBarcode contextless_env script)) = [] /\
  isGenerating
    (component (play validateBarcode contextless_env (script ++ more))) = true.
Proof.
  cbv zeta.
  destruct (@no_context_no_batch validateBarcode contextless_env
              [ Upload (batchData ean13_batch_state); ClickGenerate ]
              [ Resume 0; Upload (batchData it_state); ClickGenerate ]
              eq_refl) as (_ & Hr & _ & Hflag).
  split; [exact Hr | apply Hflag; reflexivity].
Defined.

(** From the freshly uploaded batch of three rows: the click and the four
    resumptions are one call of [generateBatch]. *)
Lemma batch_run_is_generateBatch_witness :
  let pg := play validateBarcode working_env
              [ Upload (batchData ean13_batch_state) ] in
  log (fold_left (step validateBarcode working_env)
         (ClickGenerate :: repeat (Resume 0) 4) pg)
  = snd (generateBatch working_env (component pg)).
Proof.
  cbv zeta.
  destruct (@batch_run_is_generateBatch validateBarcode working_env
              (play validateBarcode working_env
                 [ Upload (batchData ean13_batch_state) ]) eq_refl eq_refl)
    as (_ & Hlog & _).
  exact Hlog.
Defined.

(** ** The preview list of batch mode *)

(** The preview shows the first rows of the batch, in order, and the
    number it announces as left out is exactly the number of rows it does
    not show; nothing is announced exactly when every row is shown. *)
Theorem batch_preview_accounts (shown : nat) (data : list BatchItem.t) :
  preview_rows shown data ++ skipn shown data = data /\
  List.length (preview_rows shown data)
  + match preview_more shown data with
    | Some n => n
    | None => 0
    end = List.length data /\
  (preview_more shown data = None <-> preview_rows shown data = data).
Proof.
  unfold preview_rows, preview_more. split; [apply firstn_skipn|].
  rewrite length_firstn.
  destruct (Nat.ltb shown (List.length data)) eqn:E.
  - apply Nat.ltb_lt in E. split; [lia|]. split; [discriminate|].
    intros H. apply (f_equal (@List.length _)) in H.
    rewrite length_firstn in H. lia.
  - apply Nat.ltb_ge in E. split; [lia|]. split; [|reflexivity].
    intros _. now apply firstn_all2.
Qed.

(** ** Edits while no validation error is shown *)

(** First document: with no validation error shown, the preview element is
    in the tree after an edit to a new, non-empty text, so the effect
    validates it: no error is left exactly when the text is valid and the
    renderer returns, and [downloadSingle] afterwards reaches the renderer
    only with a valid text. *)
Theorem edit_without_error_validates (env : Env) (t : jsstring)
  (st : Component)
  (Hclean : validationError st = []) (Ht : t <> []) (Hnew : t <> inputText st) :
  let format := BarcodeSettings.format (barcodeSettings st) in
  let st' := fst (type_text previewEffect env t st) in
  (validationError st' = [] <->
   validateBarcode t format = true /\
   renders env previewRef t
     (plain_options (barcodeSettings st)
        (Some (text_or (BarcodeSettings.text (barcodeSettings st)) t)))
   = true) /\
  (render_attempts (downloadSingle (committed env st') st') <> [] ->
   validateBarcode t format = true).
Proof.
  cbv zeta. unfold type_text. rewrite (jsstring_eqb_neq Hnew).
  unfold previewEffect.
  cbn [committed mounted renders inputText barcodeSettings with_inputText
       validationError preview_in_tree].
  assert (Htree : preview_in_tree (with_inputText t st) = true).
  { unfold preview_in_tree. cbn [inputText validationError with_inputText].
    now rewrite Hclean, (falsy_nonempty Ht). }
  rewrite Htree, (falsy_nonempty Ht). cbn [negb orb].
  destruct (validateBarcode t (BarcodeSettings.format (barcodeSettings st)))
    eqn:Hv; cbn [negb].
  - match goal with |- context [renders ?e ?s ?c ?o] =>
      destruct (renders e s c o) eqn:Hr end; cbn [fst].
    + split; [|auto]. cbn [validationError with_validationError]. tauto.
    + split; [|auto]. cbn [validationError with_validationError].
      split; [discriminate | intros [_ H]; discriminate H].
  - cbn [fst]. split.
    + cbn [validationError with_validationError]. split.
      * intros H. exfalso. revert H. apply app_nonempty_l. discriminate.
      * intros [H _]. discriminate H.
    + intros H. exfalso. apply H. unfold downloadSingle.
      cbn [validationError with_validationError inputText with_inputText].
      rewrite (falsy_nonempty Ht).
      destruct (js "Invalid format for "
                ++ BarcodeSettings.format (barcodeSettings st)) eqn:E;
        [|reflexivity].
      exfalso. revert E. apply app_nonempty_l. discriminate.
Qed.

(** From the initial state: "abc" typed under Code128 is valid and leaves
    no error; the download renders it. *)
Lemma edit_without_error_validates_witness :
  validationError
    (fst (type_text previewEffect working_env (js "abc") initial_state)) = [] /\
  validateBarcode (js "abc") (js "CODE128") = true.
Proof.
  destruct (@edit_without_error_validates working_env (js "abc") initial_state)
    as [Herr Hdown]; try discriminate; try reflexivity.
  split; [apply Herr; split; reflexivity | reflexivity].
Defined.

(** ** The flag of a batch run *)

Lemma play_app (validate : jsstring -> jsstring -> bool) (env : Env)
  (script more : list action) :
  play validate env (script ++ more)
  = fold_left (step validate env) more (play validate env script).
Proof. unfold play. apply fold_left_app. Qed.

Lemma click_after_upload (validate : jsstring -> jsstring -> bool)
  (env : Env) (item : BatchItem.t) (items : list BatchItem.t) :
  play validate env [ Upload (item :: items); ClickGenerate ]
  = if context2d env
    then {| component :=
              with_isGenerating true
                (with_batchData (item :: items) initial_state);
            runs := [ {| pending := item :: items;
                         run_barcodeSettings := initial_barcode_settings;
                         run_exportSettings := initial_export_settings |} ];
            log := [ SetIsGenerating true;
                     size_batch_canvas initial_export_settings ] |}
    else {| component :=
              with_isGenerating true
                (with_batchData (item :: items) initial_state);
            runs := [];
            log := [ SetIsGenerating true ] |}.
Proof.
  unfold play. cbn [fold_left step]. unfold start_batch.
  cbn [component initial_page with_batchData batchData isGenerating
       initial_state button_disabled orb].
  destruct (context2d env); reflexivity.
Qed.

(** C7. A click on the enabled batch button sets [isGenerating]; where
    the canvas gives its 2D context the run the click starts resets the
    flag when it returns after its last row (line 256), and no run is left
    in flight.  Where [getContext('2d')] gives null the handler returns at
    line 194 with the flag set: no run is in flight, and whatever follows
    the flag stays true and the batch button disabled. *)
Theorem batch_flag_reset_only_with_context
  (validate : jsstring -> jsstring -> bool) (env : Env)
  (data : list BatchItem.t) (more : list action) (Hdata : data <> []) :
  let click := [ Upload data; ClickGenerate ] in
  isGenerating (component (play validate env [ Upload data ])) = false /\
  isGenerating (component (play validate env click)) = true /\
  (context2d env = true ->
   let returned :=
     play validate env (click ++ repeat (Resume 0) (S (List.length data))) in
   List.length (runs (play validate env click)) = 1 /\
   isGenerating (component returned) = false /\
   runs returned = []) /\
  (context2d env = false ->
   let later := play validate env (click ++ more) in
   runs later = [] /\
   isGenerating (component later) = true /\
   button_disabled (component later) = true).
Proof.
  cbv zeta. destruct data as [|item items]; [congruence|].
  split; [reflexivity|].
  split; [rewrite click_after_upload; destruct (context2d env); reflexivity|].
  split.
  - intros Hctx. rewrite play_app, click_after_upload, Hctx.
    split; [reflexivity|].
    erewrite resume_to_completion by reflexivity.
    split; reflexivity.
  - intros Hctx. rewrite play_app, click_after_upload, Hctx.
    match goal with |- context [fold_left _ more ?p] => set (pg := p) end.
    destruct (@fold_nothing_in_flight validate env more Hctx pg eq_refl)
      as (Hr & _ & Hf); [repeat constructor|].
    split; [exact Hr|]. split; [now apply Hf|].
    unfold button_disabled. rewrite (Hf eq_refl). apply orb_true_r.
Qed.

(** The batch of three rows: with the context the flag is back at false
    after the click and four resumptions; without it the flag is still
    true after a resumption, a new upload and another click. *)
Lemma batch_flag_reset_only_with_context_witness :
  isGenerating
    (component
       (play validateBarcode working_env
          ([ Upload (batchData ean13_batch_state); ClickGenerate ]
           ++ repeat (Resume 0) 4))) = false /\
  isGenerating
    (component
       (play validateBarcode contextless_env
          ([ Upload (batchData ean13_batch_state); ClickGenerate ]
           ++ [ Resume 0; Upload (batchData it_state); ClickGenerate ])))
  = true.
Proof.
  split.
  - destruct (@batch_flag_reset_only_with_context validateBarcode
                working_env (batchData ean13_batch_state) [])
      as (_ & _ & Hreturn & _); [discriminate|].
    destruct (Hreturn eq_refl) as (_ & Hflag & _). exact Hflag.
  - destruct (@batch_flag_reset_only_with_context validateBarcode
                contextless_env (batchData ean13_batch_state)
                [ Resume 0; Upload (batchData it_state); ClickGenerate ])
      as (_ & _ & _ & Hstuck); [discriminate|].
    destruct (Hstuck eq_refl) as (_ & Hflag & _). exact Hflag.
Defined.
